(** * Nexus: the connector registry and the request dispatcher

    A shallow embedding of [src/ApiServiceConnector.ts] and [src/Nexus.ts].

    The connector is a thin layer over three collaborators (an axios
    instance, an Apollo client, a caller-supplied executor).  The embedding
    keeps what the TypeScript code relies on:

    - JavaScript values with property reads, truthiness and string
      rendering, because the [catch] blocks probe the caught value with
      [error.isAxiosError && error.response] and [error.message || error];
    - a store of objects addressed by reference, because adapters, axios
      instances, their header objects and the connectors themselves are
      shared and compared by identity;
    - a state-and-exception monad in which a throw keeps the mutations made
      before it, with [try]/[catch]/[finally];
    - the collaborators as an interface ([Collaborators]) whose behaviour is
      arbitrary: every theorem holds for all of them. *)

From stdpp Require Import gmap strings list fin_maps pretty.
From Stdlib Require Import ZArith Ascii.

Local Open Scope string_scope.
Set Warnings "-register-all".

(** ** JavaScript values *)

Module JS.

(** [VObj] is an object given by its own properties, [VError] an instance of
    an [Error] class ([new Error(message)], or an error raised by the
    engine).  References to the stateful objects of the program (adapters,
    clients, connectors) are not values of this type: they live in the
    store below. *)
Inductive value : Type :=
  | VUndefined
  | VNull
  | VBool (b : bool)
  | VNum (n : Z)
  | VStr (s : string)
  | VObj (props : list (string * value))
  | VError (name message : string).

(** [ToBoolean]. *)
Definition truthy (v : value) : bool :=
  match v with
  | VUndefined | VNull => false
  | VBool b => b
  | VNum n => negb (n =? 0)%Z
  | VStr s => negb (String.eqb s "")
  | VObj _ | VError _ _ => true
  end.

Fixpoint own_property (k : string) (props : list (string * value)) : value :=
  match props with
  | [] => VUndefined
  | (k', v) :: rest => if String.eqb k k' then v else own_property k rest
  end.

(** [v.k].  [None] stands for the [TypeError] the engine raises when a
    property of [undefined] or [null] is read.  The connector only reads
    [isAxiosError], [response], [message] and [data], none of which a
    primitive has. *)
Definition get (v : value) (k : string) : option value :=
  match v with
  | VUndefined | VNull => None
  | VObj props => Some (own_property k props)
  | VError name message =>
      Some (if String.eqb k "message" then VStr message
            else if String.eqb k "name" then VStr name
            else VUndefined)
  | VBool _ | VNum _ | VStr _ => Some VUndefined
  end.

(** [v.k] for a value that is neither [undefined] nor [null]. *)
Definition prop (v : value) (k : string) : value := default VUndefined (get v k).

(** [a || b] *)
Definition or_else (a b : value) : value := if truthy a then a else b.

Definition nullish (v : value) : bool :=
  match v with VUndefined | VNull => true | _ => false end.

End JS.
Export JS.

(** ** The store *)

Abbreviation loc := nat.

(** [axiosInstance.defaults.headers] is a reference to a mutable mapping. *)
Record AxiosInstance := { defaults_headers : loc }.

(** An adapter object.  The connector probes it structurally
    (['axiosInstance' in adapter]), so every field may be present or absent
    whatever the declared type; [constructor_name] is
    [adapter.constructor.name]. *)
Record Adapter := {
  constructor_name : string;
  axiosInstance : option loc;
  apolloClient : option loc;
  client : option value;
  executeRequest : option loc;
}.

(** [type ClientProtocol = 'REST' | 'GraphQL' | 'Generic'] *)
Inductive ClientProtocol := REST | GraphQL | Generic.

Global Instance ClientProtocol_eq_dec : EqDecision ClientProtocol.
Proof. solve_decision. Defined.

Definition protocol_name (p : ClientProtocol) : string :=
  match p with REST => "REST" | GraphQL => "GraphQL" | Generic => "Generic" end.

(** The two [readonly] fields of [ApiServiceConnector]. *)
Record Connector := {
  adapterClient : loc;
  protocolType : ClientProtocol;
}.

Record Store := {
  header_objects : gmap loc (gmap string value);
  axios_instances : gmap loc AxiosInstance;
  adapter_objects : gmap loc Adapter;
  connector_objects : gmap loc Connector;
  (** [private static connectorRegistry = new Map<string, ApiServiceConnector>()] *)
  connectorRegistry : gmap string loc;
}.

Definition set_header_objects (f : gmap loc (gmap string value) → gmap loc (gmap string value))
    (s : Store) : Store :=
  {| header_objects := f (header_objects s);
     axios_instances := axios_instances s;
     adapter_objects := adapter_objects s;
     connector_objects := connector_objects s;
     connectorRegistry := connectorRegistry s |}.

Definition set_axios_instances (f : gmap loc AxiosInstance → gmap loc AxiosInstance)
    (s : Store) : Store :=
  {| header_objects := header_objects s;
     axios_instances := f (axios_instances s);
     adapter_objects := adapter_objects s;
     connector_objects := connector_objects s;
     connectorRegistry := connectorRegistry s |}.

Definition set_connector_objects (f : gmap loc Connector → gmap loc Connector)
    (s : Store) : Store :=
  {| header_objects := header_objects s;
     axios_instances := axios_instances s;
     adapter_objects := adapter_objects s;
     connector_objects := f (connector_objects s);
     connectorRegistry := connectorRegistry s |}.

Definition set_connectorRegistry (f : gmap string loc → gmap string loc)
    (s : Store) : Store :=
  {| header_objects := header_objects s;
     axios_instances := axios_instances s;
     adapter_objects := adapter_objects s;
     connector_objects := connector_objects s;
     connectorRegistry := f (connectorRegistry s) |}.

(** ** Computations: state and exceptions

    A call either returns or throws a JavaScript value; in both cases the
    store it leaves behind is the one it reached.  A rejected promise is a
    [Throw], a fulfilled one a [Return]: each [request] suspends once, on the
    single collaborator call it makes. *)

Inductive completion (A : Type) : Type :=
  | Return (a : A)
  | Throw (e : value).
Arguments Return {A} a.
Arguments Throw {A} e.

Definition M (A : Type) : Type := Store → completion A * Store.

Definition ret {A} (a : A) : M A := λ s, (Return a, s).

Definition throw {A} (e : value) : M A := λ s, (Throw e, s).

Definition bind {A B} (m : M A) (k : A → M B) : M B :=
  λ s, match m s with
       | (Return a, s') => k a s'
       | (Throw e, s') => (Throw e, s')
       end.

Global Instance M_ret : MRet M := @ret.
Global Instance M_bind : MBind M := λ A B k m, bind m k.

Definition gets {A} (f : Store → A) : M A := λ s, (Return (f s), s).

Definition modify (f : Store → Store) : M unit := λ s, (Return tt, f s).

(** [try { body } catch (error) { handler }] *)
Definition try_catch {A} (body : M A) (handler : value → M A) : M A :=
  λ s, match body s with
       | (Return a, s') => (Return a, s')
       | (Throw e, s') => handler e s'
       end.

(** [try { body } finally { finalizer }]: the finalizer runs on both exits;
    the completion of the body stands unless the finalizer itself throws. *)
Definition try_finally {A} (body : M A) (finalizer : M unit) : M A :=
  λ s, match body s with
       | (c, s') =>
           match finalizer s' with
           | (Return _, s'') => (c, s'')
           | (Throw e, s'') => (Throw e, s'')
           end
       end.

(** The completion of a pure collaborator call, replayed in the monad. *)
Definition lift {A} (c : completion A) : M A := λ s, (c, s).

(** ** Request configurations *)

Inductive Method := GET | POST | PATCH | PUT | DELETE.

(** [HttpRequestConfig]; an optional [any] field that is left out reads as
    [undefined]. *)
Record HttpRequestConfig := {
  http_url : string;
  http_method : Method;
  http_data : value;
  http_params : value;
  http_headers : option (gmap string string);
}.

(** [GraphQLOperationConfig]; [gql_query] is a [DocumentNode] or a string. *)
Record GraphQLOperationConfig := {
  gql_query : value;
  gql_variables : value;
  gql_headers : option (gmap string string);
}.

(** [GenericOperationConfig]: any object. *)
Definition GenericOperationConfig : Type := value.

(** What [executeHttpRequest] hands to [axiosInstance.request]. *)
Record AxiosRequestConfig := {
  url : string;
  method : Method;
  data : value;
  params : value;
}.

(** [context: headers ? { headers } : undefined] *)
Record QueryContext := { headers : gmap string string }.

(** What [executeGraphQLOperation] hands to [apolloClient.query]. *)
Record QueryOptions := {
  query : value;
  variables : value;
  context : option QueryContext;
}.

(** ** The collaborators

    Everything the connector calls and does not define: the engine's string
    rendering of numbers and objects and the messages of its [TypeError]s,
    the [gql] parser, [axiosInstance.request], [apolloClient.query] and the
    function held in [executeRequest].  The three calls may read and change
    the store at will. *)
Class Collaborators := {
  Number_toString : Z → string;
  Object_toString : list (string * value) → string;
  engine_message : string → string;
  gql : string → completion value;
  axios_request : loc → AxiosRequestConfig → M value;
  apollo_query : loc → QueryOptions → M value;
  call : loc → value → M value;
}.

(** ** [ApiServiceConnector] *)

Section Connector.
Context {world : Collaborators}.

(** [String(v)], as a template literal renders [v]. *)
Definition ToString (v : value) : string :=
  match v with
  | VUndefined => "undefined"
  | VNull => "null"
  | VBool true => "true"
  | VBool false => "false"
  | VNum n => Number_toString n
  | VStr s => s
  | VObj props => Object_toString props
  | VError name message =>
      if String.eqb name "" then message
      else if String.eqb message "" then name
      else name +:+ ": " +:+ message
  end.

(** [new Error(message)] *)
Definition Error (message : string) : value := VError "Error" message.

(** The error the engine raises on a faulty expression [what]. *)
Definition TypeError (what : string) : value := VError "TypeError" (engine_message what).

(** Following a reference.  A reference held by a running program always
    leads to an object; the [TypeError] only makes the function total. *)
Definition deref {A} (heap : Store → gmap loc A) (l : loc) : M A :=
  o ← gets (λ s, heap s !! l);
  from_option ret (throw (TypeError "dangling reference")) o.

(** [adapter.field] followed by a property read or a call on it: a field
    that is absent reads as [undefined], and using it raises. *)
Definition defined {A} (what : string) (field : option A) : M A :=
  from_option ret (throw (TypeError what)) field.

(** [axiosInstance.defaults.headers] *)
Definition defaults_headers_of (axiosInstance : loc) : M loc :=
  instance ← deref axios_instances axiosInstance;
  mret (defaults_headers instance).

(** [{ ...axiosInstance.defaults.headers }]: the properties, by value.  The
    copy is a new object that nothing else can reach until it is installed
    by [install_default_headers], which is where the store allocates it. *)
Definition spread_default_headers (axiosInstance : loc) : M (gmap string value) :=
  h ← defaults_headers_of axiosInstance;
  deref header_objects h.

(** [Object.assign(axiosInstance.defaults.headers, headers)]: every property
    of the source is written into the target object, in place. *)
Definition Object_assign (axiosInstance : loc) (source : gmap string string) : M unit :=
  h ← defaults_headers_of axiosInstance;
  _ ← deref header_objects h;
  modify (set_header_objects (alter (λ target, (VStr <$> source) ∪ target) h)).

(** [axiosInstance.defaults.headers = originalHeaders] *)
Definition install_default_headers (axiosInstance : loc)
    (originalHeaders : gmap string value) : M unit :=
  modify (λ s,
    let h := fresh (dom (header_objects s)) in
    set_axios_instances <[axiosInstance := {| defaults_headers := h |}]>
      (set_header_objects <[h := originalHeaders]> s)).

(** [axiosInstance.defaults.headers.authorization = v] *)
Definition set_default_header (axiosInstance : loc) (k : string) (v : value) : M unit :=
  h ← defaults_headers_of axiosInstance;
  _ ← deref header_objects h;
  modify (set_header_objects (alter <[k := v]> h)).

(** ['field' in adapter] *)
Definition has {A} (field : option A) : bool :=
  match field with Some _ => true | None => false end.

(** The detectors, in the order [Object.entries] enumerates them. *)
Definition PROTOCOL_DETECTORS : list (ClientProtocol * (Adapter → bool)) :=
  [ (REST, λ adapter, has (axiosInstance adapter));
    (GraphQL, λ adapter, has (apolloClient adapter));
    (Generic, λ adapter, has (client adapter) && has (executeRequest adapter)) ].

(** [Object.entries(PROTOCOL_DETECTORS).find(([_, detector]) => detector(adapter))?.[0]] *)
Definition detect (adapter : Adapter) : option ClientProtocol :=
  fst <$> find (λ entry, snd entry adapter) PROTOCOL_DETECTORS.

Definition unrecognized_adapter : string :=
  "Tipo de adaptador não reconhecido. Nenhum detector de protocolo correspondente.".

(** [new ApiServiceConnector(adapter, protocol)]: a new object, holding the
    reference [adapter]. *)
Definition new_ApiServiceConnector (adapter : loc) (protocol : ClientProtocol) : M loc :=
  λ s,
    let connector := fresh (dom (connector_objects s)) in
    (Return connector,
     set_connector_objects
       <[connector := {| adapterClient := adapter; protocolType := protocol |}]> s).

(** [`${adapter.constructor.name}:${protocol}`] *)
Definition registryKey (adapter : Adapter) (protocol : ClientProtocol) : string :=
  constructor_name adapter +:+ ":" +:+ protocol_name protocol.

Definition createOrRetrieve (adapter : loc) : M loc :=
  a ← deref adapter_objects adapter;
  match detect a with
  | None => throw (Error unrecognized_adapter)
  | Some protocol =>
      let key := registryKey a protocol in
      present ← gets (λ s, bool_decide (is_Some (connectorRegistry s !! key)));
      (if negb present
       then connector ← new_ApiServiceConnector adapter protocol;
            modify (set_connectorRegistry <[key := connector]>)
       else mret tt);;
      found ← gets (λ s, connectorRegistry s !! key);
      defined "connectorRegistry.get" found
  end.

Definition token_only_for_REST : string :=
  "Autenticação via token disponível apenas para clientes REST".

Definition applyAuthenticationToken (this : Connector) (accessToken : string) : M unit :=
  if bool_decide (protocolType this ≠ REST)
  then throw (Error token_only_for_REST)
  else
    a ← deref adapter_objects (adapterClient this);
    instance ← defined "axiosInstance.defaults" (axiosInstance a);
    set_default_header instance "authorization" (VStr ("Bearer " +:+ accessToken)).

Definition no_GraphQL_client : string :=
  "Cliente GraphQL não disponível neste conector".

(** Returns the reference held in the adapter; [None] is [undefined]. *)
Definition getGraphQLClient (this : Connector) : M (option loc) :=
  if bool_decide (protocolType this ≠ GraphQL)
  then throw (Error no_GraphQL_client)
  else
    a ← deref adapter_objects (adapterClient this);
    mret (apolloClient a).

(** [`${error.message || error}`] *)
Definition describe (error : value) : M string :=
  message ← defined "error.message" (get error "message");
  mret (ToString (or_else message error)).

(** [throw new Error(`Falha na requisição HTTP: ${error.message || error}`)] *)
Definition throw_http (error : value) : M value :=
  description ← describe error;
  throw (Error ("Falha na requisição HTTP: " +:+ description)).

(** The [catch] block of [executeHttpRequest]: [error.response] is read
    only when [error.isAxiosError] is truthy. *)
Definition catch_http (error : value) : M value :=
  isAxiosError ← defined "error.isAxiosError" (get error "isAxiosError");
  if truthy isAxiosError
  then
    response ← defined "error.response" (get error "response");
    if truthy response then mret response else throw_http error
  else throw_http error.

(** [if (headers) { Object.assign(axiosInstance.defaults.headers, headers); }] *)
Definition overlay (instance : loc) (config : HttpRequestConfig) : M unit :=
  match http_headers config with
  | Some headers => Object_assign instance headers
  | None => mret tt
  end.

Definition executeHttpRequest (adapter : loc) (config : HttpRequestConfig) : M value :=
  a ← deref adapter_objects adapter;
  instance ← defined "axiosInstance.defaults" (axiosInstance a);
  originalHeaders ← spread_default_headers instance;
  try_finally
    (try_catch
       (overlay instance config;;
        axios_request instance
          {| url := http_url config; method := http_method config;
             data := http_data config; params := http_params config |})
       catch_http)
    (install_default_headers instance originalHeaders).

Definition newline : string := String "010"%char "".

(** The template literal handed to [gql]: the query between the two
    constant chunks of the source text. *)
Definition gql_template (query : string) : string :=
  newline +:+ "            " +:+ query +:+ newline +:+ "          ".

(** The object literal [executeGraphQLOperation] returns. *)
Definition envelope (data : value) : value :=
  VObj [ ("data", data); ("status", VNum 200); ("statusText", VStr "OK");
         ("headers", VObj []); ("config", VObj []) ].

Definition catch_graphql (error : value) : M value :=
  description ← describe error;
  throw (Error ("Falha na operação GraphQL: " +:+ description)).

(** [typeof query === 'string' ? gql`...${query}...` : query] *)
Definition gqlOperation_of (query : value) : completion value :=
  match query with
  | VStr text => gql (gql_template text)
  | document => Return document
  end.

Definition executeGraphQLOperation (adapter : loc) (config : GraphQLOperationConfig) : M value :=
  a ← deref adapter_objects adapter;
  gqlOperation ← lift (gqlOperation_of (gql_query config));
  try_catch
    (apollo ← defined "apolloClient.query" (apolloClient a);
     result ← apollo_query apollo
                {| query := gqlOperation; variables := gql_variables config;
                   context := (λ headers, {| headers := headers |}) <$> gql_headers config |};
     data ← defined "result.data" (get result "data");
     mret (envelope data))
    catch_graphql.

Definition catch_generic (error : value) : M value :=
  description ← describe error;
  throw (Error ("Falha na operação genérica: " +:+ description)).

Definition executeGenericOperation (adapter : loc) (config : GenericOperationConfig) : M value :=
  a ← deref adapter_objects adapter;
  try_catch
    (execute ← defined "executeRequest" (executeRequest a);
     call execute config)
    catch_generic.

(** The three overloads of [request]: the configuration a connector takes is
    fixed by its protocol. *)
Definition ApiRequestConfig (protocol : ClientProtocol) : Type :=
  match protocol with
  | REST => HttpRequestConfig
  | GraphQL => GraphQLOperationConfig
  | Generic => GenericOperationConfig
  end.

(** [protocolType] ranges over [ClientProtocol], so the closing
    [throw new Error(`Protocolo não suportado: ...`)] of the source has no
    counterpart. *)
Definition request (this : Connector) : ApiRequestConfig (protocolType this) → M value :=
  match protocolType this as protocol return ApiRequestConfig protocol → M value with
  | REST => executeHttpRequest (adapterClient this)
  | GraphQL => executeGraphQLOperation (adapterClient this)
  | Generic => executeGenericOperation (adapterClient this)
  end.

(** [Nexus.instanciate] *)
Definition instanciate (adapter : loc) : M loc := createOrRetrieve adapter.

(** *** Observations

    What the statements below look at: the store a first call of the
    factory leaves, a run of further calls, the default headers of an axios
    instance, and the arguments of the collaborator calls. *)

(** The store after a call that found no entry: one new connector object,
    stored under the key. *)
Definition registered (l : loc) (a : Adapter) (p : ClientProtocol) (s : Store) : Store :=
  let c := fresh (dom (connector_objects s)) in
  set_connectorRegistry <[registryKey a p := c]>
    (set_connector_objects <[c := {| adapterClient := l; protocolType := p |}]> s).

(** Any number of further factory calls, whatever their adapters. *)
Fixpoint later_calls (adapters : list loc) (s : Store) : Store :=
  match adapters with
  | [] => s
  | l :: rest => later_calls rest (createOrRetrieve l s).2
  end.

(** The mapping found at [instance.defaults.headers]. *)
Definition default_headers (s : Store) (instance : loc) : option (gmap string value) :=
  axios_instances s !! instance ≫= λ i, header_objects s !! defaults_headers i.

(** What [executeHttpRequest] passes to [axiosInstance.request]. *)
Definition sent (config : HttpRequestConfig) : AxiosRequestConfig :=
  {| url := http_url config; method := http_method config;
     data := http_data config; params := http_params config |}.

(** The defaults with the per-call headers written over them. *)
Definition merged (config : HttpRequestConfig) (h0 : gmap string value) : gmap string value :=
  match http_headers config with
  | Some headers => (VStr <$> headers) ∪ h0
  | None => h0
  end.

(** What [executeGraphQLOperation] passes to [apolloClient.query]. *)
Definition asked (document : value) (config : GraphQLOperationConfig) : QueryOptions :=
  {| query := document; variables := gql_variables config;
     context := (λ headers, {| headers := headers |}) <$> gql_headers config |}.

(** Every entry of the registry leads to a connector object whose adapter
    is an object of the store, is detected with the protocol of the
    connector, and gives the key of the entry. *)
Definition registry_consistent (s : Store) : Prop :=
  ∀ (key : string) (c : loc),
    connectorRegistry s !! key = Some c →
    ∃ (l : loc) (a : Adapter) (p : ClientProtocol),
      connector_objects s !! c = Some {| adapterClient := l; protocolType := p |} ∧
      adapter_objects s !! l = Some a ∧
      detect a = Some p ∧
      key = registryKey a p.

(** The field of the adapter that the strategy of a protocol uses. *)
Definition usable (a : Adapter) (p : ClientProtocol) : Prop :=
  match p with
  | REST => is_Some (axiosInstance a)
  | GraphQL => is_Some (apolloClient a)
  | Generic => is_Some (executeRequest a)
  end.

End Connector.

(** ** A test double for the collaborators

    The mocks of the test suite, as one instance of [Collaborators]: the
    transport answers by URL, the GraphQL client by the document it is
    given, the executor echoes its configuration.  Used for the concrete
    runs below. *)

Module Mock.

Definition not_found : value :=
  VObj [ ("status", VNum 404); ("data", VObj [ ("error", VStr "Not Found") ]) ].

Definition axios_error : value :=
  VObj [ ("isAxiosError", VBool true); ("response", not_found) ].

Definition network_error : value := VObj [ ("message", VStr "Network error") ].

(** [axiosInstance.request]: ["/headers"] answers with the default headers
    the transport sees at the time of the call. *)
Definition transport (instance : loc) (config : AxiosRequestConfig) : M value :=
  λ s,
    if String.eqb (url config) "/missing" then (Throw axios_error, s)
    else if String.eqb (url config) "/down" then (Throw network_error, s)
    else if String.eqb (url config) "/void" then (Throw VUndefined, s)
    else if String.eqb (url config) "/headers" then
      match axios_instances s !! instance with
      | Some i =>
          (Return (VObj (map_to_list (default ∅ (header_objects s !! defaults_headers i)))), s)
      | None => (Throw VUndefined, s)
      end
    else (Return (VObj [ ("data", data config); ("status", VNum 200) ]), s).

(** [apolloClient.query]: the result carries the document it was asked and
    the metadata of a settled query. *)
Definition graphql (apollo : loc) (options : QueryOptions) : M value :=
  λ s,
    match JS.get (query options) "fails" with
    | Some (VStr message) => (Throw (VError "ApolloError" message), s)
    | _ =>
        (Return (VObj [ ("data", VObj [ ("asked", query options) ]);
                        ("loading", VBool false); ("networkStatus", VNum 7) ]), s)
    end.

Definition executor (f : loc) (config : value) : M value :=
  λ s,
    match JS.get config "fail" with
    | Some VUndefined => (Return (VObj [ ("result", VStr "success"); ("config", config) ]), s)
    | Some e => (Throw e, s)
    | None => (Throw VUndefined, s)
    end.

Definition parse (source : string) : completion value :=
  if String.eqb source (gql_template "") then Throw (VError "GraphQLError" "Syntax Error")
  else Return (VObj [ ("kind", VStr "Document"); ("source", VStr source) ]).

(** The objects of a small program: two REST adapters on two axios
    instances, a GraphQL adapter, a Generic adapter and an object that is
    no adapter, all plain object literals. *)
Definition rest_adapter : Adapter :=
  {| constructor_name := "Object"; axiosInstance := Some 10; apolloClient := None;
     client := None; executeRequest := None |}.

Definition other_rest_adapter : Adapter :=
  {| constructor_name := "Object"; axiosInstance := Some 11; apolloClient := None;
     client := None; executeRequest := None |}.

Definition graphql_adapter : Adapter :=
  {| constructor_name := "Object"; axiosInstance := None; apolloClient := Some 20;
     client := None; executeRequest := None |}.

Definition generic_adapter : Adapter :=
  {| constructor_name := "Object"; axiosInstance := None; apolloClient := None;
     client := Some (VObj []); executeRequest := Some 30 |}.

Definition invalid_adapter : Adapter :=
  {| constructor_name := "Object"; axiosInstance := None; apolloClient := None;
     client := None; executeRequest := None |}.

(** An object with the fields of two shapes, as an instance of a class
    that implements both [RESTAdapter] and [GenericAdapter]. *)
Definition hybrid_adapter : Adapter :=
  {| constructor_name := "HybridConfig"; axiosInstance := Some 10; apolloClient := None;
     client := Some (VObj []); executeRequest := Some 30 |}.

(** The first axios instance has the default headers [{A: '1'}]. *)
Definition store : Store :=
  {| header_objects := {[ 100 := {[ "A" := VStr "1" ]}; 101 := ∅ ]};
     axios_instances := {[ 10 := {| defaults_headers := 100 |};
                           11 := {| defaults_headers := 101 |} ]};
     adapter_objects := {[ 1 := rest_adapter; 2 := other_rest_adapter;
                           3 := graphql_adapter; 4 := generic_adapter;
                           5 := invalid_adapter; 6 := hybrid_adapter ]};
     connector_objects := ∅;
     connectorRegistry := ∅ |}.

Definition get_config (path : string) (headers : option (gmap string string)) :
    HttpRequestConfig :=
  {| http_url := path; http_method := GET; http_data := VUndefined;
     http_params := VUndefined; http_headers := headers |}.

(** A call with [headers: {B: '2'}]. *)
Definition headers_config : HttpRequestConfig :=
  get_config "/headers" (Some {[ "B" := "2" ]}).

Definition query_text : string := "query { test { id name } }".

(** What [parse] makes of [query_text] as the connector hands it over. *)
Definition query_document : list (string * value) :=
  [ ("kind", VStr "Document"); ("source", VStr (gql_template query_text)) ].

Definition operation_config : value :=
  VObj [ ("operation", VStr "test"); ("params", VObj [ ("id", VNum 1) ]) ].

Definition collaborators : Collaborators :=
  {| Number_toString := λ n, pretty n;
     Object_toString := λ _, "[object Object]";
     engine_message := λ what, "Cannot read properties of undefined (" +:+ what +:+ ")";
     gql := parse;
     axios_request := transport;
     apollo_query := graphql;
     call := executor |}.

(** A second call, with [headers: {C: '3'}]. *)
Definition second_config : HttpRequestConfig :=
  get_config "/headers" (Some {[ "C" := "3" ]}).

(** The same collaborators with a GraphQL client that rejects with [null]. *)
Definition rejecting_null : Collaborators :=
  {| Number_toString := λ n, pretty n;
     Object_toString := λ _, "[object Object]";
     engine_message := λ what, "Cannot read properties of undefined (" +:+ what +:+ ")";
     gql := parse;
     axios_request := transport;
     apollo_query := λ _ _ s, (Throw VNull, s);
     call := executor |}.

End Mock.

(** ** Running the computations *)

Section Properties.
Context {world : Collaborators}.

Lemma run_bind {A B} (m : M A) (k : A → M B) (s : Store) :
  (m ≫= k) s =
  match m s with
  | (Return a, s') => k a s'
  | (Throw e, s') => (Throw e, s')
  end.
Proof. reflexivity. Qed.

Lemma run_bind_return {A B} (m : M A) (k : A → M B) (s s' : Store) (a : A) :
  m s = (Return a, s') → (m ≫= k) s = k a s'.
Proof. intros Hm. rewrite run_bind, Hm. reflexivity. Qed.

Lemma run_bind_throw {A B} (m : M A) (k : A → M B) (s s' : Store) (e : value) :
  m s = (Throw e, s') → (m ≫= k) s = (Throw e, s').
Proof. intros Hm. rewrite run_bind, Hm. reflexivity. Qed.

(** One step of a computation whose head is a primitive of the monad. *)
Ltac run :=
  repeat (rewrite ?run_bind;
          unfold gets, modify, mret, M_ret, ret, throw, lift, from_option, defined;
          cbv beta iota).

Lemma deref_Some {A} (heap : Store → gmap loc A) (l : loc) (x : A) (s : Store) :
  heap s !! l = Some x → deref heap l s = (Return x, s).
Proof. intros Hl. unfold deref. rewrite run_bind. cbn. rewrite Hl. reflexivity. Qed.

Lemma deref_None {A} (heap : Store → gmap loc A) (l : loc) (s : Store) :
  heap s !! l = None → deref heap l s = (Throw (TypeError "dangling reference"), s).
Proof. intros Hl. unfold deref. rewrite run_bind. cbn. rewrite Hl. reflexivity. Qed.

(** *** The detectors *)

Lemma detect_unfold (adapter : Adapter) :
  detect adapter =
  if has (axiosInstance adapter) then Some REST
  else if has (apolloClient adapter) then Some GraphQL
  else if has (client adapter) && has (executeRequest adapter) then Some Generic
  else None.
Proof.
  unfold detect, PROTOCOL_DETECTORS. cbn.
  destruct (has (axiosInstance adapter)); [reflexivity|].
  destruct (has (apolloClient adapter)); [reflexivity|].
  destruct (has (client adapter) && has (executeRequest adapter)); reflexivity.
Qed.

(** *** The four ways [createOrRetrieve] runs *)

Lemma createOrRetrieve_dangling (l : loc) (s : Store) :
  adapter_objects s !! l = None →
  createOrRetrieve l s = (Throw (TypeError "dangling reference"), s).
Proof.
  intros Hl. unfold createOrRetrieve.
  apply run_bind_throw, deref_None, Hl.
Qed.

Lemma createOrRetrieve_unrecognized (l : loc) (a : Adapter) (s : Store) :
  adapter_objects s !! l = Some a → detect a = None →
  createOrRetrieve l s = (Throw (Error unrecognized_adapter), s).
Proof.
  intros Hl Hd. unfold createOrRetrieve.
  rewrite (run_bind_return _ _ s s a) by (apply deref_Some, Hl).
  rewrite Hd. reflexivity.
Qed.

Lemma createOrRetrieve_hit (l : loc) (a : Adapter) (p : ClientProtocol) (c : loc) (s : Store) :
  adapter_objects s !! l = Some a → detect a = Some p →
  connectorRegistry s !! registryKey a p = Some c →
  createOrRetrieve l s = (Return c, s).
Proof.
  intros Hl Hd Hr. unfold createOrRetrieve.
  rewrite (run_bind_return _ _ s s a) by (apply deref_Some, Hl).
  rewrite Hd. run. rewrite Hr.
  rewrite bool_decide_eq_true_2 by eauto. cbn [negb]. run. rewrite Hr. reflexivity.
Qed.

Lemma registered_registry (l : loc) (a : Adapter) (p : ClientProtocol) (s : Store) :
  connectorRegistry (registered l a p s)
  = <[registryKey a p := fresh (dom (connector_objects s))]> (connectorRegistry s).
Proof. reflexivity. Qed.

Lemma registered_connectors (l : loc) (a : Adapter) (p : ClientProtocol) (s : Store) :
  connector_objects (registered l a p s)
  = <[fresh (dom (connector_objects s)) := {| adapterClient := l; protocolType := p |}]>
      (connector_objects s).
Proof. reflexivity. Qed.

Lemma createOrRetrieve_miss (l : loc) (a : Adapter) (p : ClientProtocol) (s : Store) :
  adapter_objects s !! l = Some a → detect a = Some p →
  connectorRegistry s !! registryKey a p = None →
  createOrRetrieve l s = (Return (fresh (dom (connector_objects s))), registered l a p s).
Proof.
  intros Hl Hd Hr. unfold createOrRetrieve.
  rewrite (run_bind_return _ _ s s a) by (apply deref_Some, Hl).
  rewrite Hd. run. rewrite Hr.
  rewrite bool_decide_eq_false_2 by (intros [? ?]; discriminate). cbn [negb]. run.
  unfold new_ApiServiceConnector. run. cbn [connectorRegistry set_connectorRegistry].
  rewrite lookup_insert_eq. reflexivity.
Qed.

Lemma createOrRetrieve_cases (l : loc) (s : Store) :
  (∃ e, createOrRetrieve l s = (Throw e, s)) ∨
  (∃ a p c, adapter_objects s !! l = Some a ∧ detect a = Some p ∧
            connectorRegistry s !! registryKey a p = Some c ∧
            createOrRetrieve l s = (Return c, s)) ∨
  (∃ a p, adapter_objects s !! l = Some a ∧ detect a = Some p ∧
          connectorRegistry s !! registryKey a p = None ∧
          createOrRetrieve l s =
            (Return (fresh (dom (connector_objects s))), registered l a p s)).
Proof.
  destruct (adapter_objects s !! l) as [a|] eqn:Hl.
  - destruct (detect a) as [p|] eqn:Hd.
    + destruct (connectorRegistry s !! registryKey a p) as [c|] eqn:Hr.
      * right; left. exists a, p, c. eauto using createOrRetrieve_hit.
      * right; right. exists a, p. eauto using createOrRetrieve_miss.
    + left. eexists. eapply createOrRetrieve_unrecognized; eauto.
  - left. eexists. apply createOrRetrieve_dangling, Hl.
Qed.

(** A call never changes the adapter objects, and never touches an entry of
    the registry, or a connector object, that exists. *)
Lemma createOrRetrieve_adapter_objects (l : loc) (s : Store) :
  adapter_objects (createOrRetrieve l s).2 = adapter_objects s.
Proof.
  destruct (createOrRetrieve_cases l s)
    as [[e ->]|[(a & p & c & _ & _ & _ & ->)|(a & p & _ & _ & _ & ->)]];
    reflexivity.
Qed.

Lemma createOrRetrieve_keeps_entry (l : loc) (s : Store) (key : string) (c : loc)
    (connector : Connector) :
  connectorRegistry s !! key = Some c →
  connector_objects s !! c = Some connector →
  connectorRegistry (createOrRetrieve l s).2 !! key = Some c ∧
  connector_objects (createOrRetrieve l s).2 !! c = Some connector.
Proof.
  intros Hkey Hc.
  destruct (createOrRetrieve_cases l s)
    as [[e ->]|[(a & p & c' & _ & _ & _ & ->)|(a & p & _ & _ & Hnone & ->)]];
    [auto | auto |].
  cbn [snd]. rewrite registered_registry, registered_connectors. split.
  - rewrite lookup_insert_ne; [exact Hkey|]. intros Heq. congruence.
  - rewrite lookup_insert_ne; [exact Hc|]. intros Heq.
    apply (is_fresh (dom (connector_objects s))). rewrite Heq.
    apply elem_of_dom. eauto.
Qed.

Lemma later_calls_adapter_objects (ls : list loc) (s : Store) :
  adapter_objects (later_calls ls s) = adapter_objects s.
Proof.
  revert s. induction ls as [|l ls IH]; intros s; [reflexivity|].
  cbn. rewrite IH. apply createOrRetrieve_adapter_objects.
Qed.

Lemma later_calls_keep_entry (ls : list loc) (s : Store) (key : string) (c : loc)
    (connector : Connector) :
  connectorRegistry s !! key = Some c →
  connector_objects s !! c = Some connector →
  connectorRegistry (later_calls ls s) !! key = Some c ∧
  connector_objects (later_calls ls s) !! c = Some connector.
Proof.
  revert s. induction ls as [|l ls IH]; intros s Hkey Hc; [auto|].
  cbn. destruct (createOrRetrieve_keeps_entry l s key c connector Hkey Hc).
  apply IH; assumption.
Qed.

(** ** Protocol detection and the factory *)

(** C1, as stated, at [Mock.hybrid_adapter]: the adapter has both a [client]
    and an [executeRequest] field, and detection does not answer Generic,
    because the REST detector comes first and matches. *)
Lemma detect_generic_fields_not_Generic :
  has (client Mock.hybrid_adapter) = true ∧
  has (executeRequest Mock.hybrid_adapter) = true ∧
  detect Mock.hybrid_adapter = Some REST ∧
  detect Mock.hybrid_adapter ≠ Some Generic.
Proof.
  split; [reflexivity|]. split; [reflexivity|]. split; [reflexivity|].
  rewrite detect_unfold. discriminate.
Qed.

(** C1, amended: detection answers with the first detector that matches, in
    the order REST, GraphQL, Generic.  An adapter with an [axiosInstance]
    field is REST; one with an [apolloClient] field and no [axiosInstance]
    is GraphQL; one with both [client] and [executeRequest] and neither of
    the two client fields is Generic; when no detector matches,
    [createOrRetrieve] throws the unrecognized-adapter error and the store
    (registry and connector objects included) is the one it started in. *)
Theorem detect_first_match (l : loc) (adapter : Adapter) (s : Store) :
  adapter_objects s !! l = Some adapter →
  (has (axiosInstance adapter) = true → detect adapter = Some REST) ∧
  (has (axiosInstance adapter) = false → has (apolloClient adapter) = true →
   detect adapter = Some GraphQL) ∧
  (has (axiosInstance adapter) = false → has (apolloClient adapter) = false →
   has (client adapter) = true → has (executeRequest adapter) = true →
   detect adapter = Some Generic) ∧
  (has (axiosInstance adapter) = false → has (apolloClient adapter) = false →
   has (client adapter) && has (executeRequest adapter) = false →
   detect adapter = None ∧
   createOrRetrieve l s = (Throw (Error unrecognized_adapter), s)).
Proof.
  intros Hl. rewrite detect_unfold. split; [|split; [|split]].
  - intros ->. reflexivity.
  - intros -> ->. reflexivity.
  - intros -> -> -> ->. reflexivity.
  - intros Hx Hq Hg. split.
    + rewrite Hx, Hq, Hg. reflexivity.
    + apply (createOrRetrieve_unrecognized l adapter s Hl).
      rewrite detect_unfold, Hx, Hq, Hg. reflexivity.
Qed.

(** C9: when detection fails, [createOrRetrieve] throws before it computes a
    key: the whole store, and so the registry, is unchanged. *)
Theorem createOrRetrieve_failure_keeps_registry (l : loc) (adapter : Adapter) (s : Store) :
  adapter_objects s !! l = Some adapter →
  detect adapter = None →
  (createOrRetrieve l s).1 = Throw (Error unrecognized_adapter) ∧
  (createOrRetrieve l s).2 = s ∧
  connectorRegistry (createOrRetrieve l s).2 = connectorRegistry s ∧
  connector_objects (createOrRetrieve l s).2 = connector_objects s.
Proof.
  intros Hl Hd. rewrite (createOrRetrieve_unrecognized l adapter s Hl Hd).
  repeat split.
Qed.

(** ** The REST strategy *)

Lemma default_headers_inv (s : Store) (instance : loc) (h0 : gmap string value) :
  default_headers s instance = Some h0 →
  ∃ i, axios_instances s !! instance = Some i ∧
       header_objects s !! defaults_headers i = Some h0.
Proof.
  unfold default_headers. destruct (axios_instances s !! instance) as [i|]; [|discriminate].
  cbn. eauto.
Qed.

Lemma defaults_headers_of_run (s : Store) (instance : loc) (i : AxiosInstance) :
  axios_instances s !! instance = Some i →
  defaults_headers_of instance s = (Return (defaults_headers i), s).
Proof.
  intros Hi. unfold defaults_headers_of.
  rewrite (run_bind_return _ _ s s i) by (apply deref_Some, Hi). reflexivity.
Qed.

Lemma spread_default_headers_run (s : Store) (instance : loc) (h0 : gmap string value) :
  default_headers s instance = Some h0 →
  spread_default_headers instance s = (Return h0, s).
Proof.
  intros (i & Hi & Hh)%default_headers_inv. unfold spread_default_headers.
  rewrite (run_bind_return _ _ s s (defaults_headers i))
    by (apply defaults_headers_of_run, Hi).
  apply deref_Some, Hh.
Qed.

(** Writing one header object in place. *)
Lemma alter_default_headers (s : Store) (instance : loc) (i : AxiosInstance)
    (h0 : gmap string value) (f : gmap string value → gmap string value) :
  axios_instances s !! instance = Some i →
  header_objects s !! defaults_headers i = Some h0 →
  default_headers (set_header_objects (alter f (defaults_headers i)) s) instance
  = Some (f h0).
Proof.
  intros Hi Hh. unfold default_headers. cbn. rewrite Hi. cbn.
  rewrite lookup_alter_eq, Hh. reflexivity.
Qed.

Lemma Object_assign_run (s : Store) (instance : loc) (i : AxiosInstance)
    (h0 : gmap string value) (source : gmap string string) :
  axios_instances s !! instance = Some i →
  header_objects s !! defaults_headers i = Some h0 →
  Object_assign instance source s
  = (Return tt,
     set_header_objects (alter (λ target, (VStr <$> source) ∪ target) (defaults_headers i)) s).
Proof.
  intros Hi Hh. unfold Object_assign.
  rewrite (run_bind_return _ _ s s (defaults_headers i))
    by (apply defaults_headers_of_run, Hi).
  rewrite (run_bind_return _ _ s s h0) by (apply deref_Some, Hh).
  reflexivity.
Qed.

Lemma overlay_run (s : Store) (instance : loc) (h0 : gmap string value)
    (config : HttpRequestConfig) :
  default_headers s instance = Some h0 →
  (overlay instance config s).1 = Return tt ∧
  default_headers (overlay instance config s).2 instance = Some (merged config h0).
Proof.
  intros Hd. destruct (default_headers_inv _ _ _ Hd) as (i & Hi & Hh).
  unfold overlay, merged. destruct (http_headers config) as [headers|].
  - rewrite (Object_assign_run s instance i h0 headers Hi Hh). split; [reflexivity|].
    cbn [snd]. apply (alter_default_headers s instance i h0 _ Hi Hh).
  - split; [reflexivity | exact Hd].
Qed.

Lemma install_default_headers_run (s : Store) (instance : loc) (h0 : gmap string value) :
  (install_default_headers instance h0 s).1 = Return tt ∧
  default_headers (install_default_headers instance h0 s).2 instance = Some h0.
Proof.
  split; [reflexivity|]. unfold install_default_headers, modify, default_headers.
  cbn. rewrite lookup_insert_eq. cbn. apply lookup_insert_eq.
Qed.

(** [executeHttpRequest], once the adapter and its instance are found: the
    transport runs in the store the overlay leaves, its completion goes
    through the [catch] block, and the [finally] block runs last. *)
Lemma executeHttpRequest_run (l instance : loc) (a : Adapter) (h0 : gmap string value)
    (config : HttpRequestConfig) (s : Store) :
  adapter_objects s !! l = Some a →
  axiosInstance a = Some instance →
  default_headers s instance = Some h0 →
  executeHttpRequest l config s
  = try_finally (try_catch (axios_request instance (sent config)) catch_http)
      (install_default_headers instance h0) (overlay instance config s).2.
Proof.
  intros Hl Hx Hd. unfold executeHttpRequest.
  rewrite (run_bind_return _ _ s s a) by (apply deref_Some, Hl).
  rewrite Hx. rewrite (run_bind_return _ _ s s instance) by reflexivity.
  rewrite (run_bind_return _ _ s s h0) by (apply spread_default_headers_run, Hd).
  destruct (overlay_run s instance h0 config Hd) as [Hret _].
  unfold try_finally, try_catch. rewrite run_bind.
  destruct (overlay instance config s) as [c s1]. cbn [fst snd] in *. subst c.
  reflexivity.
Qed.

(** The [finally] block decides the headers whatever came before it. *)
Lemma try_finally_install {A} (body : M A) (instance : loc) (h0 : gmap string value)
    (s : Store) :
  (try_finally body (install_default_headers instance h0) s).1 = (body s).1 ∧
  default_headers (try_finally body (install_default_headers instance h0) s).2 instance
  = Some h0.
Proof.
  unfold try_finally. destruct (body s) as [c s'].
  destruct (install_default_headers_run s' instance h0) as [Hret Hh].
  destruct (install_default_headers instance h0 s') as [c' s'']. cbn [fst snd] in *.
  subst c'. split; [reflexivity | exact Hh].
Qed.

Lemma request_REST_completion (l instance : loc) (a : Adapter) (h0 : gmap string value)
    (config : HttpRequestConfig) (s : Store) :
  adapter_objects s !! l = Some a →
  axiosInstance a = Some instance →
  default_headers s instance = Some h0 →
  (request {| adapterClient := l; protocolType := REST |} config s).1
  = (try_catch (axios_request instance (sent config)) catch_http
       (overlay instance config s).2).1.
Proof.
  intros Hl Hx Hd. cbn [request protocolType adapterClient].
  rewrite (executeHttpRequest_run l instance a h0 config s Hl Hx Hd).
  apply try_finally_install.
Qed.

(** C4: the defaults are copied before the call; during the call the
    transport runs in a store in which the defaults are the copy with the
    per-call headers (when given) written over it; and however the call
    ends, once [request] settles the defaults are the copy again. *)
Theorem rest_headers_overlaid_then_restored (l instance : loc) (a : Adapter)
    (h0 : gmap string value) (config : HttpRequestConfig) (s : Store) :
  adapter_objects s !! l = Some a →
  axiosInstance a = Some instance →
  default_headers s instance = Some h0 →
  let this := {| adapterClient := l; protocolType := REST |} in
  let during := (overlay instance config s).2 in
  default_headers during instance
  = Some (match http_headers config with
          | Some headers => (VStr <$> headers) ∪ h0
          | None => h0
          end) ∧
  (request this config s).1
  = (try_catch (axios_request instance (sent config)) catch_http during).1 ∧
  default_headers (request this config s).2 instance = Some h0.
Proof.
  intros Hl Hx Hd this during. cbn [request this protocolType adapterClient].
  rewrite (executeHttpRequest_run l instance a h0 config s Hl Hx Hd).
  split; [apply (overlay_run s instance h0 config Hd)|].
  apply try_finally_install.
Qed.

(** *** The [catch] blocks *)

Lemma get_prop (e : value) (k : string) :
  nullish e = false → get e k = Some (prop e k).
Proof. unfold prop. destruct e; cbn; intros; reflexivity || discriminate. Qed.

Lemma truthy_prop_not_nullish (e : value) (k : string) :
  truthy (prop e k) = true → nullish e = false.
Proof. destruct e; cbn; intros; reflexivity || discriminate. Qed.

Lemma describe_run (e : value) (s : Store) :
  nullish e = false →
  describe e s = (Return (ToString (or_else (prop e "message") e)), s).
Proof. intros He. unfold describe. rewrite (get_prop e _ He). reflexivity. Qed.

Lemma throw_http_run (e : value) (s : Store) :
  nullish e = false →
  throw_http e s
  = (Throw (Error ("Falha na requisição HTTP: " +:+ ToString (or_else (prop e "message") e))), s).
Proof.
  intros He. unfold throw_http.
  rewrite (run_bind_return _ _ s s _ (describe_run e s He)). reflexivity.
Qed.

Lemma catch_http_structured (e : value) (s : Store) :
  truthy (prop e "isAxiosError") = true →
  truthy (prop e "response") = true →
  catch_http e s = (Return (prop e "response"), s).
Proof.
  intros Hflag Hresp. pose proof (truthy_prop_not_nullish e _ Hflag) as He.
  unfold catch_http. rewrite !(get_prop e _ He). run.
  rewrite Hflag. run. rewrite Hresp. reflexivity.
Qed.

Lemma catch_http_unstructured (e : value) (s : Store) :
  nullish e = false →
  truthy (prop e "isAxiosError") && truthy (prop e "response") = false →
  catch_http e s
  = (Throw (Error ("Falha na requisição HTTP: " +:+ ToString (or_else (prop e "message") e))), s).
Proof.
  intros He Hnot. unfold catch_http. rewrite !(get_prop e _ He). run.
  destruct (truthy (prop e "isAxiosError")); cbn in Hnot.
  - run. rewrite Hnot. apply throw_http_run, He.
  - apply throw_http_run, He.
Qed.

Lemma catch_graphql_run (e : value) (s : Store) :
  nullish e = false →
  catch_graphql e s
  = (Throw (Error ("Falha na operação GraphQL: " +:+ ToString (or_else (prop e "message") e))), s).
Proof.
  intros He. unfold catch_graphql.
  rewrite (run_bind_return _ _ s s _ (describe_run e s He)). reflexivity.
Qed.

Lemma catch_generic_run (e : value) (s : Store) :
  nullish e = false →
  catch_generic e s
  = (Throw (Error ("Falha na operação genérica: " +:+ ToString (or_else (prop e "message") e))), s).
Proof.
  intros He. unfold catch_generic.
  rewrite (run_bind_return _ _ s s _ (describe_run e s He)). reflexivity.
Qed.

(** C3: when the transport rejects with a value whose [isAxiosError] and
    [response] are both truthy, [request] resolves to that [response],
    whatever status it carries. *)
Theorem rest_error_response_is_the_result (l instance : loc) (a : Adapter)
    (h0 : gmap string value) (config : HttpRequestConfig) (error : value)
    (s s' : Store) :
  adapter_objects s !! l = Some a →
  axiosInstance a = Some instance →
  default_headers s instance = Some h0 →
  axios_request instance (sent config) (overlay instance config s).2 = (Throw error, s') →
  truthy (prop error "isAxiosError") = true →
  truthy (prop error "response") = true →
  (request {| adapterClient := l; protocolType := REST |} config s).1
  = Return (prop error "response").
Proof.
  intros Hl Hx Hd Hcall Hflag Hresp.
  rewrite (request_REST_completion l instance a h0 config s Hl Hx Hd).
  unfold try_catch. rewrite Hcall.
  rewrite (catch_http_structured error s' Hflag Hresp). reflexivity.
Qed.

(** ** Authentication *)

Lemma set_default_header_run (s : Store) (instance : loc) (h0 : gmap string value)
    (k : string) (v : value) :
  default_headers s instance = Some h0 →
  (set_default_header instance k v s).1 = Return tt ∧
  default_headers (set_default_header instance k v s).2 instance = Some (<[k := v]> h0).
Proof.
  intros (i & Hi & Hh)%default_headers_inv. unfold set_default_header.
  rewrite (run_bind_return _ _ s s (defaults_headers i))
    by (apply defaults_headers_of_run, Hi).
  rewrite (run_bind_return _ _ s s h0) by (apply deref_Some, Hh).
  split; [reflexivity|]. apply (alter_default_headers s instance i h0 _ Hi Hh).
Qed.

Lemma applyAuthenticationToken_REST_run (l instance : loc) (a : Adapter)
    (h0 : gmap string value) (token : string) (s : Store) :
  adapter_objects s !! l = Some a →
  axiosInstance a = Some instance →
  default_headers s instance = Some h0 →
  (applyAuthenticationToken {| adapterClient := l; protocolType := REST |} token s).1
  = Return tt ∧
  default_headers
    (applyAuthenticationToken {| adapterClient := l; protocolType := REST |} token s).2
    instance
  = Some (<["authorization" := VStr ("Bearer " +:+ token)]> h0).
Proof.
  intros Hl Hx Hd. unfold applyAuthenticationToken. cbn [protocolType adapterClient].
  rewrite bool_decide_eq_false_2 by (intros Hne; apply Hne; reflexivity).
  rewrite (run_bind_return _ _ s s a) by (apply deref_Some, Hl).
  rewrite Hx. rewrite (run_bind_return _ _ s s instance) by reflexivity.
  apply set_default_header_run, Hd.
Qed.

(** C5: on a REST connector [applyAuthenticationToken(token)] returns and
    the [authorization] default header of the adapter's axios instance is
    ["Bearer " + token]; on a GraphQL or Generic connector it throws and the
    store is untouched. *)
Theorem applyAuthenticationToken_REST_only (token : string) (s : Store) :
  (∀ (l instance : loc) (a : Adapter) (h0 : gmap string value),
     adapter_objects s !! l = Some a →
     axiosInstance a = Some instance →
     default_headers s instance = Some h0 →
     let after := applyAuthenticationToken {| adapterClient := l; protocolType := REST |} token s in
     after.1 = Return tt ∧
     default_headers after.2 instance
     = Some (<["authorization" := VStr ("Bearer " +:+ token)]> h0)) ∧
  (∀ (l : loc) (p : ClientProtocol),
     p = GraphQL ∨ p = Generic →
     applyAuthenticationToken {| adapterClient := l; protocolType := p |} token s
     = (Throw (Error token_only_for_REST), s)).
Proof.
  split.
  - intros l instance a h0 Hl Hx Hd after. subst after.
    apply (applyAuthenticationToken_REST_run l instance a h0 token s Hl Hx Hd).
  - intros l p [-> | ->]; reflexivity.
Qed.

(** ** The GraphQL strategy *)

Lemma executeGraphQLOperation_run (l apollo : loc) (a : Adapter) (document : value)
    (config : GraphQLOperationConfig) (s : Store) :
  adapter_objects s !! l = Some a →
  apolloClient a = Some apollo →
  gqlOperation_of (gql_query config) = Return document →
  executeGraphQLOperation l config s
  = try_catch
      (result ← apollo_query apollo (asked document config);
       data ← defined "result.data" (get result "data");
       mret (envelope data))
      catch_graphql s.
Proof.
  intros Hl Hq Hdoc. unfold executeGraphQLOperation.
  rewrite (run_bind_return _ _ s s a) by (apply deref_Some, Hl).
  rewrite Hdoc. rewrite (run_bind_return _ _ s s document) by reflexivity.
  rewrite Hq. unfold try_catch.
  rewrite (run_bind_return _ _ s s apollo) by reflexivity. reflexivity.
Qed.


(** ** The Generic strategy *)

Lemma executeGenericOperation_run (l f : loc) (a : Adapter) (config : value) (s : Store) :
  adapter_objects s !! l = Some a →
  executeRequest a = Some f →
  executeGenericOperation l config s = try_catch (call f config) catch_generic s.
Proof.
  intros Hl Hf. unfold executeGenericOperation.
  rewrite (run_bind_return _ _ s s a) by (apply deref_Some, Hl).
  rewrite Hf. unfold try_catch.
  rewrite (run_bind_return _ _ s s f) by reflexivity. reflexivity.
Qed.

(** C8: a Generic connector calls the adapter's [executeRequest] with the
    configuration it was given, and resolves to the very value that call
    resolves to. *)
Theorem generic_passes_through (l f : loc) (a : Adapter) (config response : value)
    (s s' : Store) :
  adapter_objects s !! l = Some a →
  executeRequest a = Some f →
  call f config s = (Return response, s') →
  request {| adapterClient := l; protocolType := Generic |} config s = (Return response, s').
Proof.
  intros Hl Hf Hcall. cbn [request protocolType adapterClient].
  rewrite (executeGenericOperation_run l f a config s Hl Hf).
  unfold try_catch. rewrite Hcall. reflexivity.
Qed.

(** ** The adapter a connector holds *)

Lemma getGraphQLClient_run (l : loc) (a : Adapter) (s : Store) :
  adapter_objects s !! l = Some a →
  getGraphQLClient {| adapterClient := l; protocolType := GraphQL |} s
  = (Return (apolloClient a), s).
Proof.
  intros Hl. unfold getGraphQLClient. cbn [protocolType adapterClient].
  rewrite bool_decide_eq_false_2 by (intros Hne; apply Hne; reflexivity).
  rewrite (run_bind_return _ _ s s a) by (apply deref_Some, Hl). reflexivity.
Qed.

(** C10: the call that creates a registry entry fixes the adapter of the
    stored connector for good.  After any further factory calls, a call
    with another adapter of the same constructor name and protocol returns
    that connector and leaves the store as it was, so the later adapter is
    stored nowhere, and the connector object still holds the first adapter.
    What is done through the connector is done to the first adapter:
    [applyAuthenticationToken] writes the header of its axios instance,
    [getGraphQLClient] returns its client, and [request] runs on its
    clients, whatever the protocol: the Generic strategy calls its
    executor, the REST strategy overlays, calls and restores its axios
    instance, the GraphQL strategy queries its Apollo client. *)
Theorem connector_keeps_first_adapter (l1 : loc) (a1 : Adapter) (p : ClientProtocol)
    (s0 : Store) :
  adapter_objects s0 !! l1 = Some a1 →
  detect a1 = Some p →
  connectorRegistry s0 !! registryKey a1 p = None →
  ∃ c : loc,
    (createOrRetrieve l1 s0).1 = Return c ∧
    ∀ (calls : list loc) (l2 : loc) (a2 : Adapter),
      let s := later_calls calls (createOrRetrieve l1 s0).2 in
      adapter_objects s0 !! l2 = Some a2 →
      constructor_name a2 = constructor_name a1 →
      detect a2 = Some p →
      createOrRetrieve l2 s = (Return c, s) ∧
      connector_objects s !! c = Some {| adapterClient := l1; protocolType := p |} ∧
      (p = REST → ∀ (instance : loc) (h0 : gmap string value) (token : string),
         axiosInstance a1 = Some instance →
         default_headers s instance = Some h0 →
         default_headers
           (applyAuthenticationToken {| adapterClient := l1; protocolType := REST |} token s).2
           instance
         = Some (<["authorization" := VStr ("Bearer " +:+ token)]> h0)) ∧
      (p = GraphQL →
         getGraphQLClient {| adapterClient := l1; protocolType := GraphQL |} s
         = (Return (apolloClient a1), s)) ∧
      (p = Generic → ∀ (f : loc) (config : value),
         executeRequest a1 = Some f →
         request {| adapterClient := l1; protocolType := Generic |} config s
         = try_catch (call f config) catch_generic s) ∧
      (p = REST → ∀ (instance : loc) (h0 : gmap string value) (config : HttpRequestConfig),
         axiosInstance a1 = Some instance →
         default_headers s instance = Some h0 →
         request {| adapterClient := l1; protocolType := REST |} config s
         = try_finally (try_catch (axios_request instance (sent config)) catch_http)
             (install_default_headers instance h0) (overlay instance config s).2) ∧
      (p = GraphQL →
       ∀ (apollo : loc) (document : value) (config : GraphQLOperationConfig),
         apolloClient a1 = Some apollo →
         gqlOperation_of (gql_query config) = Return document →
         request {| adapterClient := l1; protocolType := GraphQL |} config s
         = try_catch
             (result ← apollo_query apollo (asked document config);
              data ← defined "result.data" (get result "data");
              mret (envelope data))
             catch_graphql s).
Proof.
  intros Hl1 Hd1 Hnone.
  exists (fresh (dom (connector_objects s0))).
  rewrite (createOrRetrieve_miss l1 a1 p s0 Hl1 Hd1 Hnone). split; [reflexivity|].
  intros calls l2 a2 s Hl2 Hname Hd2. subst s. cbn [snd].
  set (c := fresh (dom (connector_objects s0))).
  set (s := later_calls calls (registered l1 a1 p s0)).
  destruct (later_calls_keep_entry calls (registered l1 a1 p s0) (registryKey a1 p) c
              {| adapterClient := l1; protocolType := p |}) as [Hkey Hc].
  { rewrite registered_registry. apply lookup_insert_eq. }
  { rewrite registered_connectors. apply lookup_insert_eq. }
  fold s in Hkey, Hc.
  assert (Hadapters : adapter_objects s = adapter_objects s0)
    by (subst s; rewrite later_calls_adapter_objects; reflexivity).
  assert (Hl1' : adapter_objects s !! l1 = Some a1) by (rewrite Hadapters; exact Hl1).
  split; [|split; [|split; [|split; [|split; [|split]]]]].
  - apply (createOrRetrieve_hit l2 a2 p c s).
    + rewrite Hadapters. exact Hl2.
    + exact Hd2.
    + unfold registryKey in *. rewrite Hname. exact Hkey.
  - exact Hc.
  - intros _ instance h0 token Hx Hh.
    apply (applyAuthenticationToken_REST_run l1 instance a1 h0 token s Hl1' Hx Hh).
  - intros _. apply (getGraphQLClient_run l1 a1 s Hl1').
  - intros _ f config Hf. cbn [request protocolType adapterClient].
    apply (executeGenericOperation_run l1 f a1 config s Hl1' Hf).
  - intros _ instance h0 config Hx Hh. cbn [request protocolType adapterClient].
    apply (executeHttpRequest_run l1 instance a1 h0 config s Hl1' Hx Hh).
  - intros _ apollo document config Hq Hdoc. cbn [request protocolType adapterClient].
    apply (executeGraphQLOperation_run l1 apollo a1 document config s Hl1' Hq Hdoc).
Qed.

(** ** Failures of the collaborators *)

(** C6, amended: a failure value other than [undefined] and [null] that is
    not a structured transport error is rethrown as one [Error] whose
    message is the prefix of the strategy, in Portuguese, followed by the
    rendering of [error.message || error]: the message when there is a
    truthy one, the whole error otherwise. *)
Theorem failures_are_wrapped (error : value) (s s' : Store) :
  nullish error = false →
  let description := ToString (or_else (prop error "message") error) in
  (∀ (l instance : loc) (a : Adapter) (h0 : gmap string value) (config : HttpRequestConfig),
     adapter_objects s !! l = Some a →
     axiosInstance a = Some instance →
     default_headers s instance = Some h0 →
     axios_request instance (sent config) (overlay instance config s).2 = (Throw error, s') →
     truthy (prop error "isAxiosError") && truthy (prop error "response") = false →
     (request {| adapterClient := l; protocolType := REST |} config s).1
     = Throw (VError "Error" ("Falha na requisição HTTP: " +:+ description))) ∧
  (∀ (l apollo : loc) (a : Adapter) (document : value) (config : GraphQLOperationConfig),
     adapter_objects s !! l = Some a →
     apolloClient a = Some apollo →
     gqlOperation_of (gql_query config) = Return document →
     apollo_query apollo (asked document config) s = (Throw error, s') →
     request {| adapterClient := l; protocolType := GraphQL |} config s
     = (Throw (VError "Error" ("Falha na operação GraphQL: " +:+ description)), s')) ∧
  (∀ (l f : loc) (a : Adapter) (config : value),
     adapter_objects s !! l = Some a →
     executeRequest a = Some f →
     call f config s = (Throw error, s') →
     request {| adapterClient := l; protocolType := Generic |} config s
     = (Throw (VError "Error" ("Falha na operação genérica: " +:+ description)), s')) ∧
  (∀ message, prop error "message" = VStr message → message ≠ "" → description = message) ∧
  (truthy (prop error "message") = false → description = ToString error).
Proof.
  intros He description. split; [|split; [|split; [|split]]].
  - intros l instance a h0 config Hl Hx Hd Hcall Hnot.
    rewrite (request_REST_completion l instance a h0 config s Hl Hx Hd).
    unfold try_catch. rewrite Hcall.
    rewrite (catch_http_unstructured error s' He Hnot). reflexivity.
  - intros l apollo a document config Hl Hq Hdoc Hcall.
    cbn [request protocolType adapterClient].
    rewrite (executeGraphQLOperation_run l apollo a document config s Hl Hq Hdoc).
    unfold try_catch. rewrite (run_bind_throw _ _ s s' error Hcall).
    apply catch_graphql_run, He.
  - intros l f a config Hl Hf Hcall. cbn [request protocolType adapterClient].
    rewrite (executeGenericOperation_run l f a config s Hl Hf).
    unfold try_catch. rewrite Hcall. apply catch_generic_run, He.
  - intros message Hm Hne. subst description. unfold or_else. rewrite Hm. cbn.
    destruct (String.eqb_spec message ""); [contradiction | reflexivity].
  - intros Hm. subst description. unfold or_else. rewrite Hm. reflexivity.
Qed.

(** *** What the statement on failures leaves out

    Two rejections reach the caller unwrapped: a collaborator that rejects
    with [undefined] or [null] makes the [catch] block itself fail on
    [error.message], and a query text that [gql] refuses is refused before
    the [try] block is entered. *)

Remark nullish_rejection_escapes (error : value) (s : Store) :
  nullish error = true →
  catch_http error s = (Throw (TypeError "error.isAxiosError"), s) ∧
  catch_graphql error s = (Throw (TypeError "error.message"), s) ∧
  catch_generic error s = (Throw (TypeError "error.message"), s).
Proof. destruct error; cbn; intros; first [discriminate | repeat split]. Qed.

(** X14: a query text that [gql] refuses makes a GraphQL [request] reject
    with the error of [gql] itself, not wrapped, and with the store
    untouched: the text is parsed before the [try] block. *)
Remark parse_failure_escapes (l : loc) (a : Adapter) (config : GraphQLOperationConfig)
    (e : value) (s : Store) :
  adapter_objects s !! l = Some a →
  gqlOperation_of (gql_query config) = Throw e →
  request {| adapterClient := l; protocolType := GraphQL |} config s = (Throw e, s).
Proof.
  intros Hl Hparse. cbn [request protocolType adapterClient].
  unfold executeGraphQLOperation.
  rewrite (run_bind_return _ _ s s a) by (apply deref_Some, Hl).
  rewrite Hparse. reflexivity.
Qed.

(** *** The header object itself

    The [finally] block does not undo the overlay: it points the instance
    to the copy.  When the transport leaves the store alone, the object
    that held the defaults before the call still carries the per-call
    headers afterwards, and the instance refers to another object. *)

Lemma catch_http_store (e : value) (s : Store) : (catch_http e s).2 = s.
Proof.
  unfold catch_http, throw_http, describe. run.
  destruct (get e "isAxiosError") as [flag|]; [|reflexivity]. run.
  destruct (truthy flag); run.
  - destruct (get e "response") as [response|]; [|reflexivity]. run.
    destruct (truthy response); [reflexivity|]. run.
    destruct (get e "message"); reflexivity.
  - destruct (get e "message"); reflexivity.
Qed.

(** X16: the [finally] block restores the defaults by pointing the
    instance to the copy, not by undoing the overlay.  When per-call
    headers were given and the transport leaves the store alone, the
    object that held the defaults before the call still carries the
    per-call headers after it, and the instance refers to another
    object. *)
Remark restore_replaces_the_object (l instance : loc) (a : Adapter) (i : AxiosInstance)
    (h0 : gmap string value) (headers : gmap string string) (config : HttpRequestConfig)
    (s : Store) :
  adapter_objects s !! l = Some a →
  axiosInstance a = Some instance →
  axios_instances s !! instance = Some i →
  header_objects s !! defaults_headers i = Some h0 →
  http_headers config = Some headers →
  (axios_request instance (sent config) (overlay instance config s).2).2
  = (overlay instance config s).2 →
  let after := (request {| adapterClient := l; protocolType := REST |} config s).2 in
  header_objects after !! defaults_headers i = Some ((VStr <$> headers) ∪ h0) ∧
  ∃ i', axios_instances after !! instance = Some i' ∧
        defaults_headers i' ≠ defaults_headers i.
Proof.
  intros Hl Hx Hi Hh Hheaders Hquiet after. subst after.
  assert (Hd : default_headers s instance = Some h0)
    by (unfold default_headers; rewrite Hi; exact Hh).
  cbn [request protocolType adapterClient].
  rewrite (executeHttpRequest_run l instance a h0 config s Hl Hx Hd).
  assert (Hduring : (overlay instance config s).2
                    = set_header_objects
                        (alter (λ target, (VStr <$> headers) ∪ target) (defaults_headers i)) s).
  { unfold overlay. rewrite Hheaders.
    rewrite (Object_assign_run s instance i h0 headers Hi Hh). reflexivity. }
  set (during := (overlay instance config s).2) in *.
  assert (Hbody : (try_catch (axios_request instance (sent config)) catch_http during).2
                  = during).
  { unfold try_catch. destruct (axios_request instance (sent config) during) as [[r|e] s1].
    - exact Hquiet.
    - cbn [snd] in Hquiet. subst s1. apply catch_http_store. }
  unfold try_finally.
  destruct (try_catch (axios_request instance (sent config)) catch_http during) as [c s1].
  cbn [snd] in Hbody. subst s1. unfold install_default_headers, modify. cbn [fst snd].
  assert (Hold : header_objects during !! defaults_headers i = Some ((VStr <$> headers) ∪ h0)).
  { rewrite Hduring. cbn. rewrite lookup_alter_eq, Hh. reflexivity. }
  assert (Hfresh : fresh (dom (header_objects during)) ≠ defaults_headers i).
  { intros Heq. apply (is_fresh (dom (header_objects during))). rewrite Heq.
    apply elem_of_dom. eauto. }
  split.
  - cbn. rewrite lookup_insert_ne by exact Hfresh. exact Hold.
  - eexists. split; [cbn; apply lookup_insert_eq|]. exact Hfresh.
Qed.

(** ** More on the registry *)

(** The name of a protocol has no colon in it. *)
Lemma protocol_name_no_colon (p : ClientProtocol) (prefix suffix : string) :
  protocol_name p ≠ prefix +:+ ":" +:+ suffix.
Proof.
  intros Heq. destruct p; cbn in Heq;
    repeat (destruct prefix as [|? prefix]; cbn in Heq;
            [discriminate Heq | injection Heq as _ Heq]);
    destruct prefix; discriminate Heq.
Qed.

Lemma protocol_name_inj (p q : ClientProtocol) :
  protocol_name p = protocol_name q → p = q.
Proof. destruct p, q; cbn; intros Heq; first [reflexivity | discriminate Heq]. Qed.

Lemma key_inj (n1 n2 : string) (p1 p2 : ClientProtocol) :
  n1 +:+ ":" +:+ protocol_name p1 = n2 +:+ ":" +:+ protocol_name p2 →
  n1 = n2 ∧ p1 = p2.
Proof.
  revert n2. induction n1 as [|c n1 IH]; intros [|c' n2] Heq; cbn in Heq.
  - injection Heq as Heq. split; [reflexivity | apply protocol_name_inj, Heq].
  - injection Heq as _ Heq. destruct (protocol_name_no_colon p1 n2 _ Heq).
  - injection Heq as _ Heq. symmetry in Heq.
    destruct (protocol_name_no_colon p2 n1 _ Heq).
  - injection Heq as -> Heq. destruct (IH n2 Heq) as [-> ->]. split; reflexivity.
Qed.

(** X1: the key [constructorName:protocol] determines both the constructor
    name and the protocol: two adapters share a key only when their
    constructor names are equal and their protocols are the same. *)
Theorem registryKey_inj (a1 a2 : Adapter) (p1 p2 : ClientProtocol) :
  registryKey a1 p1 = registryKey a2 p2 →
  constructor_name a1 = constructor_name a2 ∧ p1 = p2.
Proof. unfold registryKey. apply key_inj. Qed.

(** A call returns the connector it leaves under the key of its adapter. *)
Lemma createOrRetrieve_returns_entry (l : loc) (a : Adapter) (p : ClientProtocol)
    (s : Store) :
  adapter_objects s !! l = Some a → detect a = Some p →
  ∃ c, createOrRetrieve l s = (Return c, (createOrRetrieve l s).2) ∧
       connectorRegistry (createOrRetrieve l s).2 !! registryKey a p = Some c.
Proof.
  intros Hl Hd. destruct (connectorRegistry s !! registryKey a p) as [c|] eqn:Hr.
  - exists c. rewrite (createOrRetrieve_hit l a p c s Hl Hd Hr). split; [reflexivity|exact Hr].
  - exists (fresh (dom (connector_objects s))).
    rewrite (createOrRetrieve_miss l a p s Hl Hd Hr). split; [reflexivity|].
    cbn [snd]. rewrite registered_registry. apply lookup_insert_eq.
Qed.

Lemma registry_consistent_empty (s : Store) :
  connectorRegistry s = ∅ → registry_consistent s.
Proof. intros He key c Hkey. rewrite He, lookup_empty in Hkey. discriminate. Qed.

Lemma createOrRetrieve_consistent (l : loc) (s : Store) :
  registry_consistent s → registry_consistent (createOrRetrieve l s).2.
Proof.
  intros Hs.
  destruct (createOrRetrieve_cases l s)
    as [[e ->]|[(a & p & c' & _ & _ & _ & ->)|(a & p & Hl & Hd & Hnone & ->)]];
    [exact Hs | exact Hs |].
  cbn [snd]. intros key c Hkey. rewrite registered_registry in Hkey.
  rewrite registered_connectors.
  destruct (decide (key = registryKey a p)) as [->|Hne].
  - rewrite lookup_insert_eq in Hkey. injection Hkey as <-.
    exists l, a, p. rewrite lookup_insert_eq. auto.
  - rewrite lookup_insert_ne in Hkey by congruence.
    destruct (Hs key c Hkey) as (l' & a' & p' & Hc & Hl' & Hd' & Hk).
    exists l', a', p'. split; [|auto].
    rewrite lookup_insert_ne; [exact Hc|]. intros Heq.
    apply (is_fresh (dom (connector_objects s))). rewrite Heq.
    apply elem_of_dom. eauto.
Qed.

Lemma later_calls_consistent (calls : list loc) (s : Store) :
  registry_consistent s → registry_consistent (later_calls calls s).
Proof.
  revert s. induction calls as [|l calls IH]; intros s Hs; [exact Hs|].
  cbn. apply IH, createOrRetrieve_consistent, Hs.
Qed.

(** X2: starting from the empty registry, any run of factory calls leaves a
    registry in which every entry leads to a connector object, the adapter
    of that connector is detected with the protocol of the connector, and
    the key of the entry is the key of that adapter. *)
Theorem registry_stays_consistent (calls : list loc) (s : Store) :
  connectorRegistry s = ∅ →
  registry_consistent (later_calls calls s).
Proof. intros He. apply later_calls_consistent, registry_consistent_empty, He. Qed.

Lemma detect_usable (a : Adapter) (p : ClientProtocol) :
  detect a = Some p → usable a p.
Proof.
  rewrite detect_unfold. unfold usable, has.
  destruct (axiosInstance a), (apolloClient a), (client a), (executeRequest a), p;
    cbn; intros Hd; first [discriminate Hd | eauto].
Qed.

(** X3: after any run of factory calls from the empty registry, the
    connector a call returns for an adapter has the protocol detected for
    that adapter, and the adapter it holds has the same constructor name,
    the same detected protocol and the field that the strategy of the
    protocol uses; so [request], [applyAuthenticationToken] and
    [getGraphQLClient] never find that field missing. *)
Theorem factory_connector_fits (calls : list loc) (l : loc) (a : Adapter)
    (p : ClientProtocol) (s0 : Store) :
  connectorRegistry s0 = ∅ →
  adapter_objects s0 !! l = Some a →
  detect a = Some p →
  let s := later_calls calls s0 in
  ∃ (c held : loc) (a' : Adapter),
    (createOrRetrieve l s).1 = Return c ∧
    connector_objects (createOrRetrieve l s).2 !! c
    = Some {| adapterClient := held; protocolType := p |} ∧
    adapter_objects (createOrRetrieve l s).2 !! held = Some a' ∧
    constructor_name a' = constructor_name a ∧
    detect a' = Some p ∧
    usable a' p.
Proof.
  intros He Hl Hd s.
  assert (Hl' : adapter_objects s !! l = Some a)
    by (subst s; rewrite later_calls_adapter_objects; exact Hl).
  destruct (createOrRetrieve_returns_entry l a p s Hl' Hd) as (c & Hrun & Hentry).
  pose proof (createOrRetrieve_consistent l s
                (later_calls_consistent calls s0 (registry_consistent_empty s0 He))) as Hcons.
  destruct (Hcons _ _ Hentry) as (held & a' & p' & Hc & Hheld & Hd' & Hkey).
  unfold registryKey in Hkey. destruct (key_inj _ _ _ _ Hkey) as [Hname ->].
  exists c, held, a'. rewrite Hrun at 1. cbn [fst].
  repeat split; auto using detect_usable.
Qed.

(** C2: in any store reached by factory calls from the empty registry, two
    adapter objects with the same constructor name and the same detected
    protocol get the same connector object from two calls of the factory:
    both calls return the same reference, that reference is a connector
    object of the store with the detected protocol, it is the entry of the
    registry under [constructorName:protocol], and the second call, which
    finds that entry, changes nothing. *)
Theorem createOrRetrieve_same_connector (calls : list loc) (l1 l2 : loc)
    (a1 a2 : Adapter) (p : ClientProtocol) (s0 : Store) :
  connectorRegistry s0 = ∅ →
  adapter_objects s0 !! l1 = Some a1 →
  adapter_objects s0 !! l2 = Some a2 →
  constructor_name a1 = constructor_name a2 →
  detect a1 = Some p →
  detect a2 = Some p →
  let s := later_calls calls s0 in
  ∃ (c : loc) (s1 : Store) (held : loc),
    createOrRetrieve l1 s = (Return c, s1) ∧
    createOrRetrieve l2 s1 = (Return c, s1) ∧
    connectorRegistry s1 !! (constructor_name a2 +:+ ":" +:+ protocol_name p) = Some c ∧
    connector_objects s1 !! c = Some {| adapterClient := held; protocolType := p |}.
Proof.
  intros He Hl1 Hl2 Hname Hd1 Hd2 s.
  assert (Hs : registry_consistent s)
    by (apply later_calls_consistent, registry_consistent_empty, He).
  assert (Hl1' : adapter_objects s !! l1 = Some a1)
    by (subst s; rewrite later_calls_adapter_objects; exact Hl1).
  assert (Hkey : registryKey a2 p = registryKey a1 p)
    by (unfold registryKey; rewrite Hname; reflexivity).
  change (constructor_name a2 +:+ ":" +:+ protocol_name p) with (registryKey a2 p).
  destruct (createOrRetrieve_returns_entry l1 a1 p s Hl1' Hd1) as (c & Hrun & Hentry).
  set (s1 := (createOrRetrieve l1 s).2) in *.
  assert (Hs1 : registry_consistent s1) by (apply createOrRetrieve_consistent, Hs).
  assert (Hl2' : adapter_objects s1 !! l2 = Some a2).
  { subst s1. rewrite createOrRetrieve_adapter_objects. subst s.
    rewrite later_calls_adapter_objects. exact Hl2. }
  destruct (Hs1 _ _ Hentry) as (held & a' & p' & Hc & _ & _ & Hk).
  unfold registryKey in Hk. destruct (key_inj _ _ _ _ Hk) as [_ <-].
  exists c, s1, held. split; [exact Hrun|]. split; [|split].
  - apply (createOrRetrieve_hit l2 a2 p c s1 Hl2' Hd2). rewrite Hkey. exact Hentry.
  - rewrite Hkey. exact Hentry.
  - exact Hc.
Qed.

(** X4: after any run of factory calls from the empty registry, two
    adapters that differ in constructor name or in detected protocol get two
    different connector objects. *)
Theorem distinct_keys_distinct_connectors (calls : list loc) (l1 l2 : loc)
    (a1 a2 : Adapter) (p1 p2 : ClientProtocol) (s0 : Store) :
  connectorRegistry s0 = ∅ →
  adapter_objects s0 !! l1 = Some a1 →
  adapter_objects s0 !! l2 = Some a2 →
  detect a1 = Some p1 →
  detect a2 = Some p2 →
  constructor_name a1 ≠ constructor_name a2 ∨ p1 ≠ p2 →
  let s := later_calls calls s0 in
  ∃ c1 c2 : loc,
    (createOrRetrieve l1 s).1 = Return c1 ∧
    (createOrRetrieve l2 (createOrRetrieve l1 s).2).1 = Return c2 ∧
    c1 ≠ c2.
Proof.
  intros He Hl1 Hl2 Hd1 Hd2 Hdiff s.
  assert (Hs : registry_consistent s)
    by (apply later_calls_consistent, registry_consistent_empty, He).
  assert (Hl1' : adapter_objects s !! l1 = Some a1)
    by (subst s; rewrite later_calls_adapter_objects; exact Hl1).
  destruct (createOrRetrieve_returns_entry l1 a1 p1 s Hl1' Hd1) as (c1 & Hrun1 & Hentry1).
  set (s1 := (createOrRetrieve l1 s).2) in *.
  assert (Hs1 : registry_consistent s1) by (apply createOrRetrieve_consistent, Hs).
  assert (Hl2' : adapter_objects s1 !! l2 = Some a2).
  { subst s1. rewrite createOrRetrieve_adapter_objects. subst s.
    rewrite later_calls_adapter_objects. exact Hl2. }
  destruct (createOrRetrieve_returns_entry l2 a2 p2 s1 Hl2' Hd2) as (c2 & Hrun2 & Hentry2).
  exists c1, c2. rewrite Hrun1, Hrun2. split; [reflexivity|]. split; [reflexivity|].
  intros <-.
  destruct (Hs1 _ _ Hentry1) as (held & a' & p' & Hc1 & _).
  destruct (createOrRetrieve_keeps_entry l2 s1 _ c1 _ Hentry1 Hc1) as [Hkept _].
  assert (Hsame : registryKey a1 p1 = registryKey a2 p2).
  { destruct (createOrRetrieve_consistent l2 s1 Hs1 _ _ Hkept)
      as (h3 & b3 & q3 & Hc3 & Hb3 & _ & Hq3).
    destruct (createOrRetrieve_consistent l2 s1 Hs1 _ _ Hentry2)
      as (h4 & b4 & q4 & Hc4 & Hb4 & _ & Hq4).
    rewrite Hc3 in Hc4. injection Hc4 as <- <-. rewrite Hb3 in Hb4. injection Hb4 as <-.
    rewrite Hq3, Hq4. reflexivity. }
  unfold registryKey in Hsame. destruct (key_inj _ _ _ _ Hsame) as [Hname Hp].
  destruct Hdiff as [Hn | Hn]; contradiction.
Qed.

Lemma createOrRetrieve_grows (l : loc) (s : Store) :
  connectorRegistry s ⊆ connectorRegistry (createOrRetrieve l s).2 ∧
  connector_objects s ⊆ connector_objects (createOrRetrieve l s).2 ∧
  (size (connectorRegistry (createOrRetrieve l s).2) ≤ S (size (connectorRegistry s)))%nat.
Proof.
  destruct (createOrRetrieve_cases l s)
    as [[e ->]|[(a & p & c' & _ & _ & _ & ->)|(a & p & Hl & Hd & Hnone & ->)]];
    [cbn [snd]; repeat split; (reflexivity || lia) ..|].
  cbn [snd]. rewrite registered_registry, registered_connectors. split; [|split].
  - apply insert_subseteq, Hnone.
  - apply insert_subseteq, not_elem_of_dom, is_fresh.
  - rewrite map_size_insert_None by exact Hnone. lia.
Qed.

(** X5: the registry has no eviction.  Over any run of factory calls, the
    entries of the registry and the connector objects that exist stay as
    they are, and the registry gains at most one entry per call. *)
Theorem registry_only_grows (calls : list loc) (s : Store) :
  connectorRegistry s ⊆ connectorRegistry (later_calls calls s) ∧
  connector_objects s ⊆ connector_objects (later_calls calls s) ∧
  (size (connectorRegistry (later_calls calls s))
   ≤ size (connectorRegistry s) + length calls)%nat.
Proof.
  revert s. induction calls as [|l calls IH]; intros s; cbn [later_calls length].
  - repeat split; (reflexivity || lia).
  - destruct (createOrRetrieve_grows l s) as (Hr & Hc & Hn).
    destruct (IH (createOrRetrieve l s).2) as (Hr' & Hc' & Hn').
    split; [|split].
    + etransitivity; eassumption.
    + etransitivity; eassumption.
    + lia.
Qed.

(** ** More on the operations of a connector *)

(** X6: [getGraphQLClient] on a GraphQL connector returns the client
    reference held in the adapter; on a REST or Generic connector it throws.
    In both cases the store is untouched. *)
Theorem getGraphQLClient_GraphQL_only (s : Store) :
  (∀ (l : loc) (a : Adapter),
     adapter_objects s !! l = Some a →
     getGraphQLClient {| adapterClient := l; protocolType := GraphQL |} s
     = (Return (apolloClient a), s)) ∧
  (∀ (l : loc) (p : ClientProtocol),
     p = REST ∨ p = Generic →
     getGraphQLClient {| adapterClient := l; protocolType := p |} s
     = (Throw (VError "Error" "Cliente GraphQL não disponível neste conector"), s)).
Proof.
  split.
  - intros l a Hl. apply (getGraphQLClient_run l a s Hl).
  - intros l p [-> | ->]; reflexivity.
Qed.

(** X7: when the transport resolves, a REST [request] resolves to the very
    response of the transport. *)
Theorem rest_success_is_the_result (l instance : loc) (a : Adapter)
    (h0 : gmap string value) (config : HttpRequestConfig) (response : value)
    (s s' : Store) :
  adapter_objects s !! l = Some a →
  axiosInstance a = Some instance →
  default_headers s instance = Some h0 →
  axios_request instance (sent config) (overlay instance config s).2 = (Return response, s') →
  (request {| adapterClient := l; protocolType := REST |} config s).1 = Return response.
Proof.
  intros Hl Hx Hd Hcall.
  rewrite (request_REST_completion l instance a h0 config s Hl Hx Hd).
  unfold try_catch. rewrite Hcall. reflexivity.
Qed.

(** X8: the transport of a REST [request] with per-call headers runs in a
    store in which a per-call header has replaced the default of the same
    name and every default that the call does not name is still there:
    the completion of [request] is that of the transport in that store,
    passed through the [catch] block. *)
Theorem per_call_headers_win (l instance : loc) (a : Adapter) (h0 : gmap string value)
    (headers : gmap string string) (config : HttpRequestConfig) (s : Store) :
  adapter_objects s !! l = Some a →
  axiosInstance a = Some instance →
  default_headers s instance = Some h0 →
  http_headers config = Some headers →
  let during := (overlay instance config s).2 in
  (request {| adapterClient := l; protocolType := REST |} config s).1
  = (try_catch (axios_request instance (sent config)) catch_http during).1 ∧
  ∃ seen : gmap string value,
    default_headers during instance = Some seen ∧
    ∀ k : string,
      seen !! k = match headers !! k with
                  | Some v => Some (VStr v)
                  | None => h0 !! k
                  end.
Proof.
  intros Hl Hx Hd Hheaders during. split.
  - apply (request_REST_completion l instance a h0 config s Hl Hx Hd).
  - exists ((VStr <$> headers) ∪ h0). split.
    + destruct (overlay_run s instance h0 config Hd) as [_ Hduring].
      subst during. rewrite Hduring. unfold merged. rewrite Hheaders. reflexivity.
    + intros k. rewrite lookup_union, lookup_fmap.
      destruct (headers !! k), (h0 !! k); reflexivity.
Qed.

Lemma applyAuthenticationToken_REST_store (l instance : loc) (a : Adapter)
    (i : AxiosInstance) (h0 : gmap string value) (token : string) (s : Store) :
  adapter_objects s !! l = Some a →
  axiosInstance a = Some instance →
  axios_instances s !! instance = Some i →
  header_objects s !! defaults_headers i = Some h0 →
  (applyAuthenticationToken {| adapterClient := l; protocolType := REST |} token s).2
  = set_header_objects
      (alter <["authorization" := VStr ("Bearer " +:+ token)]> (defaults_headers i)) s.
Proof.
  intros Hl Hx Hi Hh. unfold applyAuthenticationToken. cbn [protocolType adapterClient].
  rewrite bool_decide_eq_false_2 by (intros Hne; apply Hne; reflexivity).
  rewrite (run_bind_return _ _ s s a) by (apply deref_Some, Hl).
  rewrite Hx. rewrite (run_bind_return _ _ s s instance) by reflexivity.
  unfold set_default_header.
  rewrite (run_bind_return _ _ s s (defaults_headers i))
    by (apply defaults_headers_of_run, Hi).
  rewrite (run_bind_return _ _ s s h0) by (apply deref_Some, Hh).
  reflexivity.
Qed.

Lemma applyAuthenticationToken_REST_adapters (l instance : loc) (a : Adapter)
    (h0 : gmap string value) (token : string) (s : Store) :
  adapter_objects s !! l = Some a →
  axiosInstance a = Some instance →
  default_headers s instance = Some h0 →
  adapter_objects
    (applyAuthenticationToken {| adapterClient := l; protocolType := REST |} token s).2
  = adapter_objects s.
Proof.
  intros Hl Hx (i & Hi & Hh)%default_headers_inv.
  rewrite (applyAuthenticationToken_REST_store l instance a i h0 token s Hl Hx Hi Hh).
  reflexivity.
Qed.

(** X9: a token applied through one REST connector stays for the requests
    that follow, through that connector or through any other connector
    whose adapter holds the same axios instance: the transport of such a
    request runs in a store in which the defaults are the ones with the
    [authorization] header (under the per-call headers, if any), the
    completion of the request is that of the transport in that store, and
    the defaults are the ones with the [authorization] header again once
    the request has settled. *)
Theorem token_survives_requests (l1 l2 instance : loc) (a1 a2 : Adapter)
    (h0 : gmap string value) (token : string) (config : HttpRequestConfig) (s : Store) :
  adapter_objects s !! l1 = Some a1 →
  axiosInstance a1 = Some instance →
  adapter_objects s !! l2 = Some a2 →
  axiosInstance a2 = Some instance →
  default_headers s instance = Some h0 →
  let authorized := <["authorization" := VStr ("Bearer " +:+ token)]> h0 in
  let s1 :=
    (applyAuthenticationToken {| adapterClient := l1; protocolType := REST |} token s).2 in
  let during := (overlay instance config s1).2 in
  default_headers during instance
  = Some (match http_headers config with
          | Some headers => (VStr <$> headers) ∪ authorized
          | None => authorized
          end) ∧
  (request {| adapterClient := l2; protocolType := REST |} config s1).1
  = (try_catch (axios_request instance (sent config)) catch_http during).1 ∧
  default_headers
    (request {| adapterClient := l2; protocolType := REST |} config s1).2 instance
  = Some authorized.
Proof.
  intros Hl1 Hx1 Hl2 Hx2 Hd authorized s1 during.
  destruct (applyAuthenticationToken_REST_run l1 instance a1 h0 token s Hl1 Hx1 Hd)
    as [_ Hd1].
  fold s1 authorized in Hd1.
  assert (Hl2' : adapter_objects s1 !! l2 = Some a2).
  { subst s1. rewrite (applyAuthenticationToken_REST_adapters l1 instance a1 h0 token s Hl1 Hx1 Hd).
    exact Hl2. }
  split; [|split].
  - apply (overlay_run s1 instance authorized config Hd1).
  - apply (request_REST_completion l2 instance a2 authorized config s1 Hl2' Hx2 Hd1).
  - cbn [request protocolType adapterClient].
    rewrite (executeHttpRequest_run l2 instance a2 authorized config s1 Hl2' Hx2 Hd1).
    apply try_finally_install.
Qed.

(** X10: a second token replaces the first: after two calls of
    [applyAuthenticationToken] the [authorization] default is the bearer
    value of the second token, and the other defaults are as before. *)
Theorem later_token_replaces_earlier (l instance : loc) (a : Adapter)
    (h0 : gmap string value) (first second : string) (s : Store) :
  adapter_objects s !! l = Some a →
  axiosInstance a = Some instance →
  default_headers s instance = Some h0 →
  let this := {| adapterClient := l; protocolType := REST |} in
  default_headers
    (applyAuthenticationToken this second (applyAuthenticationToken this first s).2).2
    instance
  = Some (<["authorization" := VStr ("Bearer " +:+ second)]> h0).
Proof.
  intros Hl Hx Hd this.
  destruct (applyAuthenticationToken_REST_run l instance a h0 first s Hl Hx Hd) as [_ Hd1].
  fold this in Hd1.
  assert (Hl' : adapter_objects (applyAuthenticationToken this first s).2 !! l = Some a).
  { subst this. rewrite (applyAuthenticationToken_REST_adapters l instance a h0 first s Hl Hx Hd).
    exact Hl. }
  destruct (applyAuthenticationToken_REST_run l instance a _ second _ Hl' Hx Hd1) as [_ Hd2].
  fold this in Hd2. rewrite Hd2, insert_insert_eq. reflexivity.
Qed.

(** X11: the headers of one call do not reach the next.  When a second REST
    request follows a first one on the same connector, the transport of
    the second runs in a store in which the defaults are those of before
    the first call under the headers of the second call only, the
    completion of the second request is that of the transport in that
    store, and the defaults are the same again afterwards. *)
Theorem sequential_requests_do_not_leak (l instance : loc) (a : Adapter)
    (h0 : gmap string value) (first second : HttpRequestConfig) (s : Store) :
  adapter_objects s !! l = Some a →
  axiosInstance a = Some instance →
  default_headers s instance = Some h0 →
  let this := {| adapterClient := l; protocolType := REST |} in
  let s1 := (request this first s).2 in
  let during := (overlay instance second s1).2 in
  adapter_objects s1 !! l = Some a →
  default_headers during instance
  = Some (match http_headers second with
          | Some headers => (VStr <$> headers) ∪ h0
          | None => h0
          end) ∧
  (request this second s1).1
  = (try_catch (axios_request instance (sent second)) catch_http during).1 ∧
  default_headers (request this second s1).2 instance = Some h0.
Proof.
  intros Hl Hx Hd this s1 during Hl'.
  assert (Hd1 : default_headers s1 instance = Some h0).
  { subst s1 this. cbn [request protocolType adapterClient].
    rewrite (executeHttpRequest_run l instance a h0 first s Hl Hx Hd).
    apply try_finally_install. }
  split; [|split].
  - apply (overlay_run s1 instance h0 second Hd1).
  - apply (request_REST_completion l instance a h0 second s1 Hl' Hx Hd1).
  - subst this. cbn [request protocolType adapterClient].
    rewrite (executeHttpRequest_run l instance a h0 second s1 Hl' Hx Hd1).
    apply try_finally_install.
Qed.

Lemma describe_store (e : value) (s : Store) : (describe e s).2 = s.
Proof. unfold describe. run. destruct (get e "message"); reflexivity. Qed.

Lemma catch_graphql_store (e : value) (s : Store) : (catch_graphql e s).2 = s.
Proof.
  unfold catch_graphql. rewrite run_bind. pose proof (describe_store e s) as Hs.
  destruct (describe e s) as [[d|e'] s']; cbn [snd] in Hs; subst s'; reflexivity.
Qed.

Lemma catch_generic_store (e : value) (s : Store) : (catch_generic e s).2 = s.
Proof.
  unfold catch_generic. rewrite run_bind. pose proof (describe_store e s) as Hs.
  destruct (describe e s) as [[d|e'] s']; cbn [snd] in Hs; subst s'; reflexivity.
Qed.

(** X12: the GraphQL and Generic strategies change nothing themselves:
    however the call of the client or of the executor ends, the store
    after [request] is the store that call left. *)
Theorem graphql_and_generic_leave_the_store (s : Store) :
  (∀ (l apollo : loc) (a : Adapter) (document : value) (config : GraphQLOperationConfig),
     adapter_objects s !! l = Some a →
     apolloClient a = Some apollo →
     gqlOperation_of (gql_query config) = Return document →
     (request {| adapterClient := l; protocolType := GraphQL |} config s).2
     = (apollo_query apollo (asked document config) s).2) ∧
  (∀ (l f : loc) (a : Adapter) (config : value),
     adapter_objects s !! l = Some a →
     executeRequest a = Some f →
     (request {| adapterClient := l; protocolType := Generic |} config s).2
     = (call f config s).2).
Proof.
  split.
  - intros l apollo a document config Hl Hq Hdoc.
    cbn [request protocolType adapterClient].
    rewrite (executeGraphQLOperation_run l apollo a document config s Hl Hq Hdoc).
    unfold try_catch. rewrite run_bind.
    destruct (apollo_query apollo (asked document config) s) as [[result|e] s'].
    + unfold defined. destruct (get result "data") as [d|]; cbn [from_option].
      * reflexivity.
      * run. apply catch_graphql_store.
    + apply catch_graphql_store.
  - intros l f a config Hl Hf. cbn [request protocolType adapterClient].
    rewrite (executeGenericOperation_run l f a config s Hl Hf).
    unfold try_catch. destruct (call f config s) as [[r|e] s'].
    + reflexivity.
    + apply catch_generic_store.
Qed.

Lemma overlay_frame (instance : loc) (config : HttpRequestConfig) (s : Store) :
  connectorRegistry (overlay instance config s).2 = connectorRegistry s ∧
  connector_objects (overlay instance config s).2 = connector_objects s ∧
  adapter_objects (overlay instance config s).2 = adapter_objects s ∧
  axios_instances (overlay instance config s).2 = axios_instances s.
Proof.
  unfold overlay. destruct (http_headers config) as [headers|]; [|repeat split].
  unfold Object_assign, defaults_headers_of, deref. run.
  destruct (axios_instances s !! instance) as [i|]; run; [|repeat split].
  destruct (header_objects s !! defaults_headers i); run; repeat split.
Qed.

(** X13: of the store, a REST [request] touches the header objects and the
    reference of its own axios instance to one of them, nothing else.  The
    registry, the connector objects, the adapter objects and the other
    axios instances are, before the call of the transport, what they were,
    and, after [request], what the transport left; and every header object
    the transport left is still there. *)
Theorem rest_touches_only_headers (l instance : loc) (a : Adapter)
    (h0 : gmap string value) (config : HttpRequestConfig) (s : Store) :
  adapter_objects s !! l = Some a →
  axiosInstance a = Some instance →
  default_headers s instance = Some h0 →
  let during := (overlay instance config s).2 in
  let left := (axios_request instance (sent config) during).2 in
  let after := (request {| adapterClient := l; protocolType := REST |} config s).2 in
  (connectorRegistry during = connectorRegistry s ∧
   connector_objects during = connector_objects s ∧
   adapter_objects during = adapter_objects s ∧
   axios_instances during = axios_instances s) ∧
  connectorRegistry after = connectorRegistry left ∧
  connector_objects after = connector_objects left ∧
  adapter_objects after = adapter_objects left ∧
  (∀ other : loc, other ≠ instance →
     axios_instances after !! other = axios_instances left !! other) ∧
  header_objects left ⊆ header_objects after.
Proof.
  intros Hl Hx Hd during left after. split; [apply overlay_frame|].
  subst after. cbn [request protocolType adapterClient].
  rewrite (executeHttpRequest_run l instance a h0 config s Hl Hx Hd). fold during.
  assert (Hbody : (try_catch (axios_request instance (sent config)) catch_http during).2
                  = left).
  { subst left. unfold try_catch.
    destruct (axios_request instance (sent config) during) as [[r|e] s1];
      [reflexivity | apply catch_http_store]. }
  unfold try_finally.
  destruct (try_catch (axios_request instance (sent config)) catch_http during) as [c s1].
  cbn [snd] in Hbody. subst s1. unfold install_default_headers, modify. cbn.
  repeat split.
  - intros other Hne. rewrite lookup_insert_ne by congruence. reflexivity.
  - apply insert_subseteq, not_elem_of_dom, is_fresh.
Qed.

(** X15: a collaborator that rejects with [undefined] or [null] makes
    [request] reject with the [TypeError] of the engine, raised by the
    [catch] block on the first property it reads of the caught value; the
    rejection is not wrapped. *)
Theorem nullish_rejection_rejects_request (error : value) (s s' : Store) :
  nullish error = true →
  (∀ (l instance : loc) (a : Adapter) (h0 : gmap string value) (config : HttpRequestConfig),
     adapter_objects s !! l = Some a →
     axiosInstance a = Some instance →
     default_headers s instance = Some h0 →
     axios_request instance (sent config) (overlay instance config s).2 = (Throw error, s') →
     (request {| adapterClient := l; protocolType := REST |} config s).1
     = Throw (VError "TypeError" (engine_message "error.isAxiosError"))) ∧
  (∀ (l apollo : loc) (a : Adapter) (document : value) (config : GraphQLOperationConfig),
     adapter_objects s !! l = Some a →
     apolloClient a = Some apollo →
     gqlOperation_of (gql_query config) = Return document →
     apollo_query apollo (asked document config) s = (Throw error, s') →
     request {| adapterClient := l; protocolType := GraphQL |} config s
     = (Throw (VError "TypeError" (engine_message "error.message")), s')) ∧
  (∀ (l f : loc) (a : Adapter) (config : value),
     adapter_objects s !! l = Some a →
     executeRequest a = Some f →
     call f config s = (Throw error, s') →
     request {| adapterClient := l; protocolType := Generic |} config s
     = (Throw (VError "TypeError" (engine_message "error.message")), s')).
Proof.
  intros He. destruct (nullish_rejection_escapes error s' He) as (Hhttp & Hgraphql & Hgeneric).
  split; [|split].
  - intros l instance a h0 config Hl Hx Hd Hcall.
    rewrite (request_REST_completion l instance a h0 config s Hl Hx Hd).
    unfold try_catch. rewrite Hcall, Hhttp. reflexivity.
  - intros l apollo a document config Hl Hq Hdoc Hcall.
    cbn [request protocolType adapterClient].
    rewrite (executeGraphQLOperation_run l apollo a document config s Hl Hq Hdoc).
    unfold try_catch. rewrite (run_bind_throw _ _ s s' error Hcall). exact Hgraphql.
  - intros l f a config Hl Hf Hcall. cbn [request protocolType adapterClient].
    rewrite (executeGenericOperation_run l f a config s Hl Hf).
    unfold try_catch. rewrite Hcall. exact Hgeneric.
Qed.

End Properties.

(** ** Concrete runs

    The theorems above at the objects of [Mock]: the runs of the test suite
    and the examples of the documentation. *)

Lemma detect_first_match_witness :
  detect Mock.rest_adapter = Some REST ∧
  detect Mock.graphql_adapter = Some GraphQL ∧
  detect Mock.generic_adapter = Some Generic ∧
  detect Mock.hybrid_adapter = Some REST ∧
  createOrRetrieve (world := Mock.collaborators) 5 Mock.store
  = (Throw (VError "Error" unrecognized_adapter), Mock.store).
Proof.
  split; [|split; [|split; [|split]]].
  - apply (detect_first_match (world := Mock.collaborators) 1 Mock.rest_adapter Mock.store);
      reflexivity.
  - apply (detect_first_match (world := Mock.collaborators) 3 Mock.graphql_adapter Mock.store);
      reflexivity.
  - apply (detect_first_match (world := Mock.collaborators) 4 Mock.generic_adapter Mock.store);
      reflexivity.
  - apply (detect_first_match (world := Mock.collaborators) 6 Mock.hybrid_adapter Mock.store);
      reflexivity.
  - apply (detect_first_match (world := Mock.collaborators) 5 Mock.invalid_adapter Mock.store);
      reflexivity.
Defined.

Lemma createOrRetrieve_failure_keeps_registry_witness :
  (createOrRetrieve (world := Mock.collaborators) 5 Mock.store).1
  = Throw (VError "Error" unrecognized_adapter) ∧
  (createOrRetrieve (world := Mock.collaborators) 5 Mock.store).2 = Mock.store ∧
  connectorRegistry (createOrRetrieve (world := Mock.collaborators) 5 Mock.store).2 = ∅ ∧
  connector_objects (createOrRetrieve (world := Mock.collaborators) 5 Mock.store).2 = ∅.
Proof.
  apply (createOrRetrieve_failure_keeps_registry (world := Mock.collaborators)
           5 Mock.invalid_adapter Mock.store); reflexivity.
Defined.

(** Two REST adapters on different axios instances: one connector. *)
Lemma createOrRetrieve_same_connector_witness :
  ∃ (c : loc) (s1 : Store) (held : loc),
    createOrRetrieve (world := Mock.collaborators) 1
      (later_calls (world := Mock.collaborators) [3; 4] Mock.store) = (Return c, s1) ∧
    createOrRetrieve (world := Mock.collaborators) 2 s1 = (Return c, s1) ∧
    connectorRegistry s1 !! "Object:REST" = Some c ∧
    connector_objects s1 !! c = Some {| adapterClient := held; protocolType := REST |}.
Proof.
  apply (createOrRetrieve_same_connector (world := Mock.collaborators)
           [3; 4] 1 2 Mock.rest_adapter Mock.other_rest_adapter REST Mock.store);
    reflexivity.
Defined.

Lemma connector_keeps_first_adapter_witness :
  ∃ c : loc,
    (createOrRetrieve (world := Mock.collaborators) 1 Mock.store).1 = Return c ∧
    createOrRetrieve (world := Mock.collaborators) 2
      (later_calls (world := Mock.collaborators) [3; 4; 5]
         (createOrRetrieve (world := Mock.collaborators) 1 Mock.store).2)
    = (Return c,
       later_calls (world := Mock.collaborators) [3; 4; 5]
         (createOrRetrieve (world := Mock.collaborators) 1 Mock.store).2) ∧
    connector_objects
      (later_calls (world := Mock.collaborators) [3; 4; 5]
         (createOrRetrieve (world := Mock.collaborators) 1 Mock.store).2) !! c
    = Some {| adapterClient := 1; protocolType := REST |} ∧
    (request (world := Mock.collaborators) {| adapterClient := 1; protocolType := REST |}
       Mock.headers_config
       (later_calls (world := Mock.collaborators) [3; 4; 5]
          (createOrRetrieve (world := Mock.collaborators) 1 Mock.store).2)).1
    = Return (VObj [ ("A", VStr "1"); ("B", VStr "2") ]).
Proof.
  destruct (connector_keeps_first_adapter (world := Mock.collaborators)
              1 Mock.rest_adapter REST Mock.store eq_refl eq_refl eq_refl) as (c & Hc & Hlater).
  exists c. split; [exact Hc|].
  destruct (Hlater [3; 4; 5] 2 Mock.other_rest_adapter eq_refl eq_refl eq_refl)
    as (Hsame & Hheld & _ & _ & _ & Hrequest & _).
  split; [exact Hsame|]. split; [exact Hheld|].
  rewrite (Hrequest eq_refl 10 {[ "A" := VStr "1" ]} Mock.headers_config eq_refl eq_refl).
  vm_compute. reflexivity.
Defined.

(** The 404 of the test suite: handed back as the result. *)
Lemma rest_error_response_is_the_result_witness :
  (request (world := Mock.collaborators) {| adapterClient := 1; protocolType := REST |}
     (Mock.get_config "/missing" None) Mock.store).1
  = Return (VObj [ ("status", VNum 404); ("data", VObj [ ("error", VStr "Not Found") ]) ]).
Proof.
  apply (rest_error_response_is_the_result (world := Mock.collaborators)
           1 10 Mock.rest_adapter {[ "A" := VStr "1" ]} (Mock.get_config "/missing" None)
           Mock.axios_error Mock.store Mock.store); reflexivity.
Defined.

(** Defaults [{A: '1'}], a call with [headers: {B: '2'}]: the transport sees
    [{A: '1', B: '2'}], and the defaults are [{A: '1'}] once the call has
    settled. *)
Lemma rest_headers_overlaid_then_restored_witness :
  (request (world := Mock.collaborators) {| adapterClient := 1; protocolType := REST |}
     Mock.headers_config Mock.store).1
  = Return (VObj [ ("A", VStr "1"); ("B", VStr "2") ]) ∧
  default_headers
    (request (world := Mock.collaborators) {| adapterClient := 1; protocolType := REST |}
       Mock.headers_config Mock.store).2 10
  = Some {[ "A" := VStr "1" ]}.
Proof.
  destruct (rest_headers_overlaid_then_restored (world := Mock.collaborators)
              1 10 Mock.rest_adapter {[ "A" := VStr "1" ]} Mock.headers_config Mock.store
              eq_refl eq_refl eq_refl) as (_ & Hcompletion & Hafter).
  split; [|exact Hafter].
  etransitivity; [exact Hcompletion|]. vm_compute. reflexivity.
Defined.

Lemma applyAuthenticationToken_REST_only_witness :
  default_headers
    (applyAuthenticationToken (world := Mock.collaborators)
       {| adapterClient := 1; protocolType := REST |} "abc" Mock.store).2 10
  = Some {[ "A" := VStr "1"; "authorization" := VStr "Bearer abc" ]} ∧
  applyAuthenticationToken (world := Mock.collaborators)
    {| adapterClient := 3; protocolType := GraphQL |} "abc" Mock.store
  = (Throw (VError "Error" token_only_for_REST), Mock.store) ∧
  applyAuthenticationToken (world := Mock.collaborators)
    {| adapterClient := 4; protocolType := Generic |} "abc" Mock.store
  = (Throw (VError "Error" token_only_for_REST), Mock.store).
Proof.
  destruct (applyAuthenticationToken_REST_only (world := Mock.collaborators) "abc" Mock.store)
    as [Hrest Hother].
  split; [|split].
  - etransitivity.
    + apply (Hrest 1 10 Mock.rest_adapter {[ "A" := VStr "1" ]}); reflexivity.
    + vm_compute. reflexivity.
  - apply Hother. left. reflexivity.
  - apply Hother. right. reflexivity.
Defined.

(** C6, as stated, on the failure [{message: 'Network error'}] of the spec:
    the message of the rejection is not the English one. *)
Lemma http_failure_message_is_not_English :
  (request (world := Mock.collaborators) {| adapterClient := 1; protocolType := REST |}
     (Mock.get_config "/down" None) Mock.store).1
  = Throw (VError "Error" "Falha na requisição HTTP: Network error") ∧
  (request (world := Mock.collaborators) {| adapterClient := 1; protocolType := REST |}
     (Mock.get_config "/down" None) Mock.store).1
  ≠ Throw (VError "Error" "HTTP request failed: Network error").
Proof.
  assert (Hrun :
    (request (world := Mock.collaborators) {| adapterClient := 1; protocolType := REST |}
       (Mock.get_config "/down" None) Mock.store).1
    = Throw (VError "Error" "Falha na requisição HTTP: Network error"))
    by (vm_compute; reflexivity).
  split; [exact Hrun|]. rewrite Hrun. discriminate.
Qed.

(** A network error on the REST path, a rejected query, and an executor
    that rejects with [{}]. *)
Lemma failures_are_wrapped_witness :
  (request (world := Mock.collaborators) {| adapterClient := 1; protocolType := REST |}
     (Mock.get_config "/down" None) Mock.store).1
  = Throw (VError "Error" "Falha na requisição HTTP: Network error") ∧
  request (world := Mock.collaborators) {| adapterClient := 3; protocolType := GraphQL |}
    {| gql_query := VObj [ ("fails", VStr "GraphQL error") ]; gql_variables := VUndefined;
       gql_headers := None |} Mock.store
  = (Throw (VError "Error" "Falha na operação GraphQL: GraphQL error"), Mock.store) ∧
  request (world := Mock.collaborators) {| adapterClient := 4; protocolType := Generic |}
    (VObj [ ("fail", VObj []) ]) Mock.store
  = (Throw (VError "Error" "Falha na operação genérica: [object Object]"), Mock.store).
Proof.
  split; [|split].
  - apply (failures_are_wrapped (world := Mock.collaborators)
             Mock.network_error Mock.store Mock.store eq_refl)
      with (instance := 10) (a := Mock.rest_adapter) (h0 := {[ "A" := VStr "1" ]});
      reflexivity.
  - apply (failures_are_wrapped (world := Mock.collaborators)
             (VError "ApolloError" "GraphQL error") Mock.store Mock.store eq_refl)
      with (apollo := 20) (a := Mock.graphql_adapter)
           (document := VObj [ ("fails", VStr "GraphQL error") ]);
      reflexivity.
  - apply (failures_are_wrapped (world := Mock.collaborators)
             (VObj []) Mock.store Mock.store eq_refl)
      with (f := 30) (a := Mock.generic_adapter);
      reflexivity.
Defined.


(** The executor of the test double answers with the configuration it was
    called with. *)
Lemma generic_passes_through_witness :
  request (world := Mock.collaborators) {| adapterClient := 4; protocolType := Generic |}
    Mock.operation_config Mock.store
  = (Return (VObj [ ("result", VStr "success"); ("config", Mock.operation_config) ]),
     Mock.store).
Proof.
  apply (generic_passes_through (world := Mock.collaborators)
           4 30 Mock.generic_adapter Mock.operation_config); reflexivity.
Defined.

(** ** Concrete runs of the further properties *)

Lemma registryKey_inj_witness :
  constructor_name Mock.rest_adapter = constructor_name Mock.other_rest_adapter ∧
  REST = REST.
Proof.
  apply (registryKey_inj Mock.rest_adapter Mock.other_rest_adapter REST REST).
  reflexivity.
Defined.

Lemma registry_stays_consistent_witness :
  registry_consistent
    (later_calls (world := Mock.collaborators) [1; 2; 3; 4; 5; 6] Mock.store).
Proof.
  apply (registry_stays_consistent (world := Mock.collaborators)
           [1; 2; 3; 4; 5; 6] Mock.store).
  reflexivity.
Defined.

Lemma factory_connector_fits_witness :
  ∃ (c held : loc) (a' : Adapter),
    (createOrRetrieve (world := Mock.collaborators) 2
       (later_calls (world := Mock.collaborators) [1; 3] Mock.store)).1 = Return c ∧
    connector_objects
      (createOrRetrieve (world := Mock.collaborators) 2
         (later_calls (world := Mock.collaborators) [1; 3] Mock.store)).2 !! c
    = Some {| adapterClient := held; protocolType := REST |} ∧
    adapter_objects
      (createOrRetrieve (world := Mock.collaborators) 2
         (later_calls (world := Mock.collaborators) [1; 3] Mock.store)).2 !! held
    = Some a' ∧
    constructor_name a' = "Object" ∧
    detect a' = Some REST ∧
    usable a' REST.
Proof.
  apply (factory_connector_fits (world := Mock.collaborators)
           [1; 3] 2 Mock.other_rest_adapter REST Mock.store); reflexivity.
Defined.

(** A REST adapter and a GraphQL adapter, both plain objects. *)
Lemma distinct_keys_distinct_connectors_witness :
  ∃ c1 c2 : loc,
    (createOrRetrieve (world := Mock.collaborators) 1
       (later_calls (world := Mock.collaborators) [4] Mock.store)).1 = Return c1 ∧
    (createOrRetrieve (world := Mock.collaborators) 3
       (createOrRetrieve (world := Mock.collaborators) 1
          (later_calls (world := Mock.collaborators) [4] Mock.store)).2).1 = Return c2 ∧
    c1 ≠ c2.
Proof.
  apply (distinct_keys_distinct_connectors (world := Mock.collaborators)
           [4] 1 3 Mock.rest_adapter Mock.graphql_adapter REST GraphQL Mock.store);
    first [reflexivity | right; discriminate].
Defined.

Lemma getGraphQLClient_GraphQL_only_witness :
  getGraphQLClient (world := Mock.collaborators)
    {| adapterClient := 3; protocolType := GraphQL |} Mock.store
  = (Return (Some 20), Mock.store) ∧
  getGraphQLClient (world := Mock.collaborators)
    {| adapterClient := 1; protocolType := REST |} Mock.store
  = (Throw (VError "Error" "Cliente GraphQL não disponível neste conector"), Mock.store).
Proof.
  destruct (getGraphQLClient_GraphQL_only (world := Mock.collaborators) Mock.store)
    as [Hgraphql Hother].
  split.
  - apply (Hgraphql 3 Mock.graphql_adapter). reflexivity.
  - apply Hother. left. reflexivity.
Defined.

Lemma rest_success_is_the_result_witness :
  (request (world := Mock.collaborators) {| adapterClient := 1; protocolType := REST |}
     (Mock.get_config "/users" None) Mock.store).1
  = Return (VObj [ ("data", VUndefined); ("status", VNum 200) ]).
Proof.
  apply (rest_success_is_the_result (world := Mock.collaborators)
           1 10 Mock.rest_adapter {[ "A" := VStr "1" ]} (Mock.get_config "/users" None)
           (VObj [ ("data", VUndefined); ("status", VNum 200) ]) Mock.store Mock.store);
    reflexivity.
Defined.

Lemma per_call_headers_win_witness :
  (request (world := Mock.collaborators) {| adapterClient := 1; protocolType := REST |}
     Mock.headers_config Mock.store).1
  = Return (VObj [ ("A", VStr "1"); ("B", VStr "2") ]) ∧
  ∃ seen : gmap string value,
    default_headers
      (overlay (world := Mock.collaborators) 10 Mock.headers_config Mock.store).2 10
    = Some seen ∧
    ∀ k : string,
      seen !! k = match ({[ "B" := "2" ]} : gmap string string) !! k with
                  | Some v => Some (VStr v)
                  | None => ({[ "A" := VStr "1" ]} : gmap string value) !! k
                  end.
Proof.
  destruct (per_call_headers_win (world := Mock.collaborators)
              1 10 Mock.rest_adapter {[ "A" := VStr "1" ]} {[ "B" := "2" ]}
              Mock.headers_config Mock.store eq_refl eq_refl eq_refl eq_refl)
    as [Hcompletion Hseen].
  split; [|exact Hseen].
  etransitivity; [exact Hcompletion|]. vm_compute. reflexivity.
Defined.

(** The token is applied through the connector of the first adapter and the
    request goes through a connector of [Mock.hybrid_adapter], which holds
    the same axios instance. *)
Lemma token_survives_requests_witness :
  (request (world := Mock.collaborators) {| adapterClient := 6; protocolType := REST |}
     Mock.headers_config
     (applyAuthenticationToken (world := Mock.collaborators)
        {| adapterClient := 1; protocolType := REST |} "abc" Mock.store).2).1
  = Return (VObj [ ("authorization", VStr "Bearer abc"); ("A", VStr "1");
                   ("B", VStr "2") ]) ∧
  default_headers
    (request (world := Mock.collaborators) {| adapterClient := 6; protocolType := REST |}
       Mock.headers_config
       (applyAuthenticationToken (world := Mock.collaborators)
          {| adapterClient := 1; protocolType := REST |} "abc" Mock.store).2).2 10
  = Some {[ "A" := VStr "1"; "authorization" := VStr "Bearer abc" ]}.
Proof.
  destruct (token_survives_requests (world := Mock.collaborators)
              1 6 10 Mock.rest_adapter Mock.hybrid_adapter {[ "A" := VStr "1" ]} "abc"
              Mock.headers_config Mock.store eq_refl eq_refl eq_refl eq_refl eq_refl)
    as (_ & Hcompletion & Hafter).
  split.
  - etransitivity; [exact Hcompletion|]. vm_compute. reflexivity.
  - etransitivity; [exact Hafter|]. vm_compute. reflexivity.
Defined.

Lemma later_token_replaces_earlier_witness :
  default_headers
    (applyAuthenticationToken (world := Mock.collaborators)
       {| adapterClient := 1; protocolType := REST |} "new"
       (applyAuthenticationToken (world := Mock.collaborators)
          {| adapterClient := 1; protocolType := REST |} "old" Mock.store).2).2 10
  = Some {[ "A" := VStr "1"; "authorization" := VStr "Bearer new" ]}.
Proof.
  etransitivity.
  - apply (later_token_replaces_earlier (world := Mock.collaborators)
             1 10 Mock.rest_adapter {[ "A" := VStr "1" ]} "old" "new" Mock.store);
      reflexivity.
  - vm_compute. reflexivity.
Defined.

(** A call with [{B: '2'}], then a call with [{C: '3'}]: the second sees
    [{A: '1', C: '3'}]. *)
Lemma sequential_requests_do_not_leak_witness :
  (request (world := Mock.collaborators) {| adapterClient := 1; protocolType := REST |}
     Mock.second_config
     (request (world := Mock.collaborators) {| adapterClient := 1; protocolType := REST |}
        Mock.headers_config Mock.store).2).1
  = Return (VObj [ ("C", VStr "3"); ("A", VStr "1") ]) ∧
  default_headers
    (request (world := Mock.collaborators) {| adapterClient := 1; protocolType := REST |}
       Mock.second_config
       (request (world := Mock.collaborators) {| adapterClient := 1; protocolType := REST |}
          Mock.headers_config Mock.store).2).2 10
  = Some {[ "A" := VStr "1" ]}.
Proof.
  destruct (sequential_requests_do_not_leak (world := Mock.collaborators)
              1 10 Mock.rest_adapter {[ "A" := VStr "1" ]} Mock.headers_config
              Mock.second_config Mock.store eq_refl eq_refl eq_refl)
    as (_ & Hcompletion & Hafter).
  { vm_compute. reflexivity. }
  split.
  - etransitivity; [exact Hcompletion|]. vm_compute. reflexivity.
  - exact Hafter.
Defined.

Lemma graphql_and_generic_leave_the_store_witness :
  (request (world := Mock.collaborators) {| adapterClient := 3; protocolType := GraphQL |}
     {| gql_query := VObj [ ("fails", VStr "GraphQL error") ]; gql_variables := VUndefined;
        gql_headers := Some {[ "B" := "2" ]} |} Mock.store).2
  = Mock.store ∧
  (request (world := Mock.collaborators) {| adapterClient := 4; protocolType := Generic |}
     Mock.operation_config Mock.store).2
  = Mock.store.
Proof.
  destruct (graphql_and_generic_leave_the_store (world := Mock.collaborators) Mock.store)
    as [Hgraphql Hgeneric].
  split.
  - etransitivity.
    + apply (Hgraphql 3 20 Mock.graphql_adapter (VObj [ ("fails", VStr "GraphQL error") ]));
        reflexivity.
    + reflexivity.
  - etransitivity.
    + apply (Hgeneric 4 30 Mock.generic_adapter); reflexivity.
    + reflexivity.
Defined.

Lemma rest_touches_only_headers_witness :
  connectorRegistry
    (request (world := Mock.collaborators) {| adapterClient := 1; protocolType := REST |}
       Mock.headers_config Mock.store).2 = ∅ ∧
  adapter_objects
    (request (world := Mock.collaborators) {| adapterClient := 1; protocolType := REST |}
       Mock.headers_config Mock.store).2 = adapter_objects Mock.store ∧
  axios_instances
    (request (world := Mock.collaborators) {| adapterClient := 1; protocolType := REST |}
       Mock.headers_config Mock.store).2 !! 11 = Some {| defaults_headers := 101 |}.
Proof.
  destruct (rest_touches_only_headers (world := Mock.collaborators)
              1 10 Mock.rest_adapter {[ "A" := VStr "1" ]} Mock.headers_config Mock.store
              eq_refl eq_refl eq_refl)
    as (_ & Hregistry & _ & Hadapters & Hinstances & _).
  split; [|split].
  - etransitivity; [exact Hregistry|]. reflexivity.
  - etransitivity; [exact Hadapters|]. reflexivity.
  - etransitivity; [apply Hinstances; discriminate|]. reflexivity.
Defined.

Lemma parse_failure_escapes_witness :
  request (world := Mock.collaborators) {| adapterClient := 3; protocolType := GraphQL |}
    {| gql_query := VStr ""; gql_variables := VUndefined; gql_headers := None |} Mock.store
  = (Throw (VError "GraphQLError" "Syntax Error"), Mock.store).
Proof.
  apply (parse_failure_escapes (world := Mock.collaborators) 3 Mock.graphql_adapter);
    reflexivity.
Defined.

Lemma nullish_rejection_rejects_request_witness :
  (request (world := Mock.rejecting_null) {| adapterClient := 1; protocolType := REST |}
     (Mock.get_config "/void" None) Mock.store).1
  = Throw (VError "TypeError" "Cannot read properties of undefined (error.isAxiosError)") ∧
  request (world := Mock.rejecting_null) {| adapterClient := 3; protocolType := GraphQL |}
    {| gql_query := VObj Mock.query_document; gql_variables := VUndefined;
       gql_headers := None |} Mock.store
  = (Throw (VError "TypeError" "Cannot read properties of undefined (error.message)"),
     Mock.store) ∧
  request (world := Mock.rejecting_null) {| adapterClient := 4; protocolType := Generic |}
    (VObj [ ("fail", VNull) ]) Mock.store
  = (Throw (VError "TypeError" "Cannot read properties of undefined (error.message)"),
     Mock.store).
Proof.
  split; [|split].
  - apply (nullish_rejection_rejects_request (world := Mock.rejecting_null)
             VUndefined Mock.store Mock.store eq_refl)
      with (instance := 10) (a := Mock.rest_adapter) (h0 := {[ "A" := VStr "1" ]});
      reflexivity.
  - apply (nullish_rejection_rejects_request (world := Mock.rejecting_null)
             VNull Mock.store Mock.store eq_refl)
      with (apollo := 20) (a := Mock.graphql_adapter) (document := VObj Mock.query_document);
      reflexivity.
  - apply (nullish_rejection_rejects_request (world := Mock.rejecting_null)
             VNull Mock.store Mock.store eq_refl)
      with (f := 30) (a := Mock.generic_adapter);
      reflexivity.
Defined.

(** After a call with [{B: '2'}] the object that held [{A: '1'}] holds
    [{A: '1', B: '2'}], and the instance points elsewhere. *)
Lemma restore_replaces_the_object_witness :
  header_objects
    (request (world := Mock.collaborators) {| adapterClient := 1; protocolType := REST |}
       Mock.headers_config Mock.store).2 !! 100
  = Some {[ "A" := VStr "1"; "B" := VStr "2" ]} ∧
  ∃ i', axios_instances
          (request (world := Mock.collaborators) {| adapterClient := 1; protocolType := REST |}
             Mock.headers_config Mock.store).2 !! 10 = Some i' ∧
        defaults_headers i' ≠ 100.
Proof.
  destruct (restore_replaces_the_object (world := Mock.collaborators)
              1 10 Mock.rest_adapter {| defaults_headers := 100 |} {[ "A" := VStr "1" ]}
              {[ "B" := "2" ]} Mock.headers_config Mock.store
              eq_refl eq_refl eq_refl eq_refl eq_refl eq_refl)
    as [Hold Hnew].
  split; [|exact Hnew].
  etransitivity; [exact Hold|]. vm_compute. reflexivity.
Defined.
